(** * go-coap demo: discovery / observe client and server

    A shallow embedding of [examples/demo/server/main.go] and of the two
    client programs kept in [examples/demo/client/main.go], followed by the
    properties of their orchestration logic.

    The CoAP engine, the clock, the formatter of durations and the parser
    of network addresses belong to external packages.  What they hand back
    to the demo code is an interface here ([ServerRuntime], [Net]); the
    module [GoRuntime] gives reference instances, used to run the model on
    concrete inputs. *)

From Stdlib Require Import ZArith List String Ascii Bool Lia.
Import ListNotations.

Local Open Scope string_scope.
Local Open Scope Z_scope.

(** ** Go values *)

(** A Go [error] value; in an [option error], [None] stands for [nil]. *)
Definition error := string.

(** The outcome of a fallible call whose values are only looked at when
    the error is [nil]. *)
Inductive result (A : Type) : Type :=
| Ok (a : A)
| Err (e : error).
Arguments Ok {A} a.
Arguments Err {A} e.

Module GoInt.

(** [int64] arithmetic wraps around. *)
Definition int64 (z : Z) : Z := (z + 2 ^ 63) mod 2 ^ 64 - 2 ^ 63.

(** The conversion [uint32(x)] keeps the low 32 bits. *)
Definition uint32 (z : Z) : Z := z mod 2 ^ 32.

End GoInt.

(** ** The CoAP values the demo touches (packages codes, message) *)

Module codes.

(** [codes.Code] is an unsigned 16-bit number, class * 32 + detail. *)
Definition Code := Z.
Definition Empty : Code := 0.
Definition GET : Code := 1.
Definition POST : Code := 2.
Definition PUT : Code := 3.
Definition DELETE : Code := 4.
Definition Content : Code := 69.

End codes.

Module message.

Inductive Type_ : Type :=
| Confirmable
| NonConfirmable
| Acknowledgement
| Reset.

Definition MediaType := Z.
Definition TextPlain : MediaType := 0.

(** What the accessors [Options().Path()] and [Options().Observe()] return
    for a received message: a value and an error, as in Go. *)
Record Options : Type := mkOptions {
  Path : string * option error;
  Observe : Z * option error
}.

End message.

Module mux.

(** A connection, known by the address of its peer. *)
Record Conn : Type := mkConn { RemoteAddr : string }.

(** A received request: [mux.Message]. *)
Record Message : Type := mkMessage {
  Code : codes.Code;
  Type_ : message.Type_;
  Token : list Byte.byte;
  Options : message.Options
}.

Record ResponseWriter : Type := mkResponseWriter { Conn_ : Conn }.

End mux.

Module pool.

(** An outgoing message: [pool.Message], as the demo fills it. *)
Record Message : Type := mkMessage {
  Code : codes.Code;
  Token : list Byte.byte;
  Body : string;
  ContentFormat : option message.MediaType;
  Observe : option Z
}.

(** A message fresh from the pool. *)
Definition AcquireMessage : Message :=
  mkMessage codes.Empty [] "" None None.

Definition SetCode (c : codes.Code) (m : Message) : Message :=
  mkMessage c (Token m) (Body m) (ContentFormat m) (Observe m).

Definition SetToken (t : list Byte.byte) (m : Message) : Message :=
  mkMessage (Code m) t (Body m) (ContentFormat m) (Observe m).

Definition SetBody (b : string) (m : Message) : Message :=
  mkMessage (Code m) (Token m) b (ContentFormat m) (Observe m).

Definition SetContentFormat (f : message.MediaType) (m : Message) : Message :=
  mkMessage (Code m) (Token m) (Body m) (Some f) (Observe m).

Definition SetObserve (o : Z) (m : Message) : Message :=
  mkMessage (Code m) (Token m) (Body m) (ContentFormat m) (Some o).

End pool.

(** ** The server: examples/demo/server/main.go *)

(** What the server's surroundings decide: the reading of the monotonic
    clock at its k-th query (nanoseconds), the outcome of the k-th call of
    [WriteMessage], and how [%v] prints a [time.Duration]. *)
Class ServerRuntime : Type := mkServerRuntime {
  clockAt : nat -> Z;
  writeResult : nat -> option error;
  formatDuration : Z -> string
}.

Module Server.

(** One line of the log, by call site. *)
Inductive LogEntry : Type :=
| CannotGetPath (e : error)
| GotMcastMessage (path : string) (from : string)
| GotMessage (path : string) (r : mux.Message) (from : string)
| TransmitterStopping (e : error)
| TransmitterError (e : error).

(** One call of [WriteMessage]: connection, message and outcome. *)
Record WriteEvent : Type := mkWriteEvent {
  wConn : mux.Conn;
  wMsg : pool.Message;
  wErr : option error
}.

(** The state the handlers act on. [response] is what [SetResponse] left
    in the response writer of the request being served; [goroutines] are
    the transmitters started with [go], by connection and token. *)
Record World : Type := mkWorld {
  clockReads : nat;
  slept : Z;
  writes : list WriteEvent;
  goroutines : list (mux.Conn * list Byte.byte);
  response : option pool.Message;
  logs : list LogEntry
}.

Definition M (A : Type) : Type := World -> A * World.

Definition ret {A : Type} (a : A) : M A := fun s => (a, s).

Definition bind {A B : Type} (c : M A) (k : A -> M B) : M B :=
  fun s => let (a, s') := c s in k a s'.

Definition exec {A : Type} (c : M A) (s : World) : World := snd (c s).

Declare Scope go_scope.
Delimit Scope go_scope with go.
Notation "x <- c ;; k" := (bind c (fun x => k))
  (at level 61, c at next level, right associativity) : go_scope.
Notation "c ;; k" := (bind c (fun _ => k))
  (at level 61, right associativity) : go_scope.
Local Open Scope go_scope.

Section WithRuntime.
Context {R : ServerRuntime}.

(** [time.Second] in nanoseconds. *)
Definition Second : Z := 1000000000.

Definition time_Now : M Z :=
  fun s => (clockAt (clockReads s),
            mkWorld (S (clockReads s)) (slept s) (writes s) (goroutines s)
                    (response s) (logs s)).

Definition time_Since (t : Z) : M Z :=
  now <- time_Now ;; ret (now - t).

(** The time that passes shows in the later readings of the clock. *)
Definition time_Sleep (d : Z) : M unit :=
  fun s => (tt, mkWorld (clockReads s) (slept s + d) (writes s) (goroutines s)
                        (response s) (logs s)).

Definition log_Printf (e : LogEntry) : M unit :=
  fun s => (tt, mkWorld (clockReads s) (slept s) (writes s) (goroutines s)
                        (response s) (logs s ++ [e])).

Definition WriteMessage (cc : mux.Conn) (m : pool.Message) : M (option error) :=
  fun s => let err := writeResult (List.length (writes s)) in
           (err, mkWorld (clockReads s) (slept s)
                         (writes s ++ [mkWriteEvent cc m err]) (goroutines s)
                         (response s) (logs s)).

Definition SetResponse (c : codes.Code) (f : message.MediaType) (b : string)
  : M unit :=
  fun s => (tt, mkWorld (clockReads s) (slept s) (writes s) (goroutines s)
                        (Some (pool.SetBody b (pool.SetContentFormat f
                                 (pool.SetCode c pool.AcquireMessage))))
                        (logs s)).

(** [go periodicTransmitter(cc, token)]: the statement returns at once. *)
Definition go_periodicTransmitter (cc : mux.Conn) (token : list Byte.byte)
  : M unit :=
  fun s => (tt, mkWorld (clockReads s) (slept s) (writes s)
                        (goroutines s ++ [(cc, token)]) (response s) (logs s)).

Definition getPath (opts : message.Options) : M string :=
  let (path, err) := message.Path opts in
  match err with
  | Some e => log_Printf (CannotGetPath e) ;; ret ""
  | None => ret path
  end.

(** The message goes back to the pool when the function returns
    ([defer cc.ReleaseMessage(m)]), which leaves no trace in the state. *)
Definition sendResponse (cc : mux.Conn) (token : list Byte.byte)
  (subded : Z) (obs : Z) : M (option error) :=
  let m := pool.AcquireMessage in
  let m := pool.SetCode codes.Content m in
  let m := pool.SetToken token m in
  d <- time_Since subded ;;
  let m := pool.SetBody ("Been running for " ++ formatDuration d) m in
  let m := pool.SetContentFormat message.TextPlain m in
  let m := if 0 <=? obs then pool.SetObserve (GoInt.uint32 obs) m else m in
  WriteMessage cc m.

(** How a run of the transmitter's loop ends: the function returned, or
    the iterations granted were used up with the loop still going, [obs]
    being the counter of the next one. *)
Inductive LoopEnd : Type :=
| Returned
| Running (obs : Z).

(** [for obs := int64(2); ; obs++ { ... }], for at most [fuel] iterations. *)
Fixpoint transmitLoop (fuel : nat) (cc : mux.Conn) (token : list Byte.byte)
  (subded : Z) (obs : Z) : M LoopEnd :=
  match fuel with
  | O => ret (Running obs)
  | S fuel' =>
      err <- sendResponse cc token subded obs ;;
      match err with
      | Some e => log_Printf (TransmitterStopping e) ;; ret Returned
      | None =>
          time_Sleep Second ;;
          transmitLoop fuel' cc token subded (GoInt.int64 (obs + 1))
      end
  end.

Definition periodicTransmitter (fuel : nat) (cc : mux.Conn)
  (token : list Byte.byte) : M LoopEnd :=
  subded <- time_Now ;;
  transmitLoop fuel cc token subded 2.

Definition handleMcast (w : mux.ResponseWriter) (r : mux.Message) : M unit :=
  let (path, err) := message.Path (mux.Options r) in
  match err with
  | Some e => log_Printf (CannotGetPath e)
  | None =>
      log_Printf (GotMcastMessage path (mux.RemoteAddr (mux.Conn_ w))) ;;
      SetResponse codes.Content message.TextPlain "mcast response"
  end.

Definition isNil (err : option error) : bool :=
  match err with None => true | Some _ => false end.

Definition handleObserve (w : mux.ResponseWriter) (r : mux.Message) : M unit :=
  path <- getPath (mux.Options r) ;;
  log_Printf (GotMessage path r (mux.RemoteAddr (mux.Conn_ w))) ;;
  let (obs, err) := message.Observe (mux.Options r) in
  if (mux.Code r =? codes.GET) && isNil err && (obs =? 0) then
    go_periodicTransmitter (mux.Conn_ w) (mux.Token r)
  else if mux.Code r =? codes.GET then
    now <- time_Now ;;
    err <- sendResponse (mux.Conn_ w) (mux.Token r) now (-1) ;;
    match err with
    | Some e => log_Printf (TransmitterError e)
    | None => ret tt
    end
  else ret tt.

End WithRuntime.

(** A world in which nothing has happened yet. *)
Definition idle : World := mkWorld 0 0 [] [] None [].

End Server.

(** The vocabulary of the statements about the server. *)
Module ServerSpec.
Import Server.

(** The notification [sendResponse] builds, given the duration it read and
    the value of [obs]. *)
Definition notification {R : ServerRuntime} (token : list Byte.byte)
  (d : Z) (obs : Z) : pool.Message :=
  pool.mkMessage codes.Content token
                 ("Been running for " ++ formatDuration d)%string
                 (Some message.TextPlain)
                 (if 0 <=? obs then Some (GoInt.uint32 obs) else None).

(** The value of the loop variable [obs] after [i] increments. *)
Definition counterAt (obs : Z) (i : nat) : Z :=
  Nat.iter i (fun o => GoInt.int64 (o + 1)) obs.

(** The request of the demo client: a GET that registers an observation. *)
Definition observeStart (r : mux.Message) : Prop :=
  mux.Code r = codes.GET
  /\ snd (message.Observe (mux.Options r)) = None
  /\ fst (message.Observe (mux.Options r)) = 0.

(** What a reply that reports the uptime would read at the clock reading
    [now], for a server started at the reading [started]. *)
Definition uptimeBody {R : ServerRuntime} (started now : Z) : string :=
  ("Been running for " ++ formatDuration (now - started))%string.

End ServerSpec.

(** ** The client: examples/demo/client/main.go *)

(** [net.SplitHostPort], from the Go library. *)
Class Net : Type := mkNet {
  SplitHostPort : string -> result (string * string)
}.

Module Client.

Inductive LogEntry : Type :=
| ErrorParsingAddress (addr : string) (e : error)
| SkippingLocalDevice (addr : string)
| DiscoveredDevice (addr : string)
| SelectedDevice (addr : string).

(** The variables the discovery callback shares with [main]: the string
    [firstDevice], and the channel [deviceFound], kept as the values whose
    sender waits for [main] to receive. The channel has no buffer, so a
    callback that sends is held in the send: [parked] are the lines such
    callbacks log once they are let go. *)
Record State : Type := mkState {
  firstDevice : string;
  deviceFound : list bool;
  logs : list LogEntry;
  parked : list LogEntry
}.

(** [var firstDevice string; deviceFound = make(chan bool)] *)
Definition start : State := mkState "" [] [] [].

Definition log_Printf (e : LogEntry) (st : State) : State :=
  mkState (firstDevice st) (deviceFound st) (logs st ++ [e]) (parked st).

(** A line that waits behind a send. *)
Definition park (e : LogEntry) (st : State) : State :=
  mkState (firstDevice st) (deviceFound st) (logs st) (parked st ++ [e]).

(** [if firstDevice == "" { firstDevice = addr; deviceFound <- true }] *)
Definition selectFirst (addr : string) (st : State) : State :=
  if String.eqb (firstDevice st) "" then
    mkState addr (deviceFound st ++ [true]) (logs st) (parked st)
  else st.

(** [host == "127.0.0.1" || host == "::1" || host == "localhost"] *)
Definition isLocal (host : string) : bool :=
  String.eqb host "127.0.0.1" || String.eqb host "::1"
  || String.eqb host "localhost".

(** What [main] has come to. [Dial]: it derived the observer address and
    goes on to connect; [Fatal]: [log.Fatal] ended the process, [msg]
    being the text it was given (the error itself where it was given
    nothing else); [Waiting]: it is blocked on the channel, with nobody
    left to send. *)
Inductive Progress : Type :=
| Dial (observerAddr : string) (device : string)
| Fatal (msg : string)
| Waiting.

(** The errors that the library calls of [main] return on the way to the
    discovery: [coapnet.NewListenUDP], [message.GetToken], [req.SetupGet]
    and [s.DiscoveryRequest]. *)
Record Calls : Type := mkCalls {
  listenErr : option error;
  tokenErr : option error;
  setupGetErr : option error;
  discoveryErr : option error
}.

(** Every call returns [nil]. *)
Definition succeed : Calls := mkCalls None None None None.

Section WithNet.
Context {N : Net}.

(** The callback given to [DiscoveryRequest] by the first program, run for
    the response of the peer at [addr]. *)
Definition discoveryCallback (addr : string) (st : State) : State :=
  match SplitHostPort addr with
  | Err e => log_Printf (ErrorParsingAddress addr e) st
  | Ok (host, _) =>
      if isLocal host then log_Printf (SkippingLocalDevice addr) st
      else selectFirst addr (log_Printf (DiscoveredDevice addr) st)
  end.

(** The callback of the second program: no parsing, no filter. The send
    holds the callback that selects until [main] receives, which is after
    [DiscoveryRequest] has returned: the line it logs after the send is
    parked, to come out beside what [main] goes on to do. A callback that
    does not send logs its line at once. *)
Definition discoveryCallback2 (addr : string) (st : State) : State :=
  if String.eqb (firstDevice st) "" then
    park (DiscoveredDevice addr) (selectFirst addr st)
  else log_Printf (DiscoveredDevice addr) st.

(** [DiscoveryRequest] runs the callback on every response, one at a time
    in the order of arrival, until the context of the request expires. *)
Definition DiscoveryRequest (callback : string -> State -> State)
  (responses : list string) (st : State) : State :=
  fold_left (fun st addr => callback addr st) responses st.

(** [fmt.Sprintf("%s:5688", host)] on the host of the selected device. *)
Definition observerAddr (device : string) : result string :=
  match SplitHostPort device with
  | Err e => Err e
  | Ok (host, _) => Ok (host ++ ":5688")
  end.

Definition connect (st : State) : Progress :=
  match observerAddr (firstDevice st) with
  | Err e => Fatal "Error parsing address:"
  | Ok a => Dial a (firstDevice st)
  end.

(** The first program, from its start to the observer address: [lib] are
    the errors its library calls return, [responses] the responses that
    arrive before the context of the request expires. The [select]
    receives from [deviceFound] when a sender is waiting, and runs into
    [time.After(discoveryTimeout)] when none is. *)
Definition main (lib : Calls) (responses : list string) : Progress :=
  match listenErr lib with
  | Some e => Fatal e
  | None =>
  match tokenErr lib with
  | Some _ => Fatal "cannot get token:"
  | None =>
  match setupGetErr lib with
  | Some _ => Fatal "cannot create discover request:"
  | None =>
  let st := DiscoveryRequest discoveryCallback responses start in
  match discoveryErr lib with
  | Some _ => Fatal "discovery error:"
  | None =>
  match deviceFound st with
  | _ :: _ => connect (log_Printf (SelectedDevice (firstDevice st)) st)
  | [] => Fatal "Timeout: No non-local devices found"
  end end end end end.

(** The second program: the same calls, and a bare [<-deviceFound]. *)
Definition main2 (lib : Calls) (responses : list string) : Progress :=
  match listenErr lib with
  | Some e => Fatal e
  | None =>
  match tokenErr lib with
  | Some _ => Fatal "cannot get token:"
  | None =>
  match setupGetErr lib with
  | Some _ => Fatal "cannot create discover request:"
  | None =>
  let st := DiscoveryRequest discoveryCallback2 responses start in
  match discoveryErr lib with
  | Some _ => Fatal "discovery error:"
  | None =>
  match deviceFound st with
  | _ :: _ => connect (log_Printf (SelectedDevice (firstDevice st)) st)
  | [] => Waiting
  end end end end end.

End WithNet.

End Client.

(** The vocabulary of the statements about the client. *)
Module ClientSpec.
Import Client.

(** A response that the first program takes for a device: its address
    parses and its host is none of the three local names. *)
Definition nonLocal {N : Net} (addr : string) : bool :=
  match SplitHostPort addr with
  | Ok (host, _) => negb (isLocal host)
  | Err _ => false
  end.

(** A response from the local host itself. *)
Definition localResponder {N : Net} (addr : string) : bool :=
  match SplitHostPort addr with
  | Ok (host, _) => isLocal host
  | Err _ => false
  end.

End ClientSpec.

(** ** Reference models of the Go library functions *)

Module GoRuntime.

Definition digit (d : Z) : ascii := ascii_of_nat (48 + Z.to_nat d).

(** [fmtInt]: the decimal digits of [v] in front of [acc], ["0"] for zero. *)
Fixpoint fmtIntLoop (fuel : nat) (v : Z) (acc : string) : string :=
  match fuel with
  | O => acc
  | S fuel' =>
      if 0 <? v then fmtIntLoop fuel' (v / 10) (String (digit (v mod 10)) acc)
      else acc
  end.

Definition fmtInt (v : Z) (acc : string) : string :=
  if v =? 0 then String "0" acc else fmtIntLoop 20 v acc.

(** [fmtFrac]: the fraction of [v / 10^prec] without its trailing zeros in
    front of [acc], and [v / 10^prec]. *)
Fixpoint fmtFracLoop (prec : nat) (v : Z) (print : bool) (acc : string)
  : string * Z * bool :=
  match prec with
  | O => (acc, v, print)
  | S prec' =>
      let d := v mod 10 in
      let print := print || negb (d =? 0) in
      fmtFracLoop prec' (v / 10) print
                  (if print then String (digit d) acc else acc)
  end.

Definition fmtFrac (v : Z) (prec : nat) (acc : string) : string * Z :=
  let '(acc, v, print) := fmtFracLoop prec v false acc in
  (if print then String "." acc else acc, v).

(** [time.Duration.String], which [%v] prints. *)
Definition DurationString (d : Z) : string :=
  let u := Z.abs d in
  let sign := if d <? 0 then "-" else "" in
  if u <? 1000000000 then
    if u =? 0 then "0s"
    else
      let '(prec, unit) :=
        if u <? 1000 then (0%nat, "ns")
        else if u <? 1000000
             then (3%nat, String (ascii_of_nat 194) (String (ascii_of_nat 181) "s"))
             else (6%nat, "ms") in
      let '(w, u) := fmtFrac u prec unit in
      sign ++ fmtInt u w
  else
    let '(w, u) := fmtFrac u 9 "s" in
    let w := fmtInt (u mod 60) w in
    let u := u / 60 in
    let w :=
      if 0 <? u then
        let w := fmtInt (u mod 60) (String "m" w) in
        let u := u / 60 in
        if 0 <? u then fmtInt u (String "h" w) else w
      else w in
    sign ++ w.

Fixpoint IndexByte (s : string) (c : ascii) : option nat :=
  match s with
  | EmptyString => None
  | String a s' =>
      if Ascii.eqb a c then Some O else option_map S (IndexByte s' c)
  end.

Fixpoint LastIndexByte (s : string) (c : ascii) : option nat :=
  match s with
  | EmptyString => None
  | String a s' =>
      match LastIndexByte s' c with
      | Some i => Some (S i)
      | None => if Ascii.eqb a c then Some O else None
      end
  end.

Definition contains (s : string) (c : ascii) : bool :=
  match IndexByte s c with Some _ => true | None => false end.

(** [s[n:]] *)
Definition from (n : nat) (s : string) : string :=
  substring n (String.length s - n) s.

(** [s[n]], for [n] within the string. *)
Definition byteAt (s : string) (n : nat) : ascii :=
  match get n s with
  | Some c => c
  | None => zero
  end.

(** [net.SplitHostPort]. *)
Definition SplitHostPort (hostport : string) : result (string * string) :=
  match LastIndexByte hostport ":" with
  | None => Err "missing port in address"
  | Some i =>
      let finish (host : string) (j k : nat) :=
        if contains (from j hostport) "[" then Err "unexpected '[' in address"
        else if contains (from k hostport) "]"
             then Err "unexpected ']' in address"
             else Ok (host, from (S i) hostport) in
      if Ascii.eqb (byteAt hostport 0) "[" then
        match IndexByte hostport "]" with
        | None => Err "missing ']' in address"
        | Some end_ =>
            if (S end_ =? String.length hostport)%nat
            then Err "missing port in address"
            else if (S end_ =? i)%nat
            then finish (substring 1 (end_ - 1) hostport) 1%nat (S end_)
            else if Ascii.eqb (byteAt hostport (S end_)) ":"
                 then Err "too many colons in address"
                 else Err "missing port in address"
        end
      else
        let host := substring 0 i hostport in
        if contains host ":" then Err "too many colons in address"
        else finish host O O
  end.

(** A server whose clock starts at [t0] and moves on by [dt] between two
    queries, and whose writes never fail. *)
Definition steady (t0 dt : Z) : ServerRuntime :=
  mkServerRuntime (fun k => t0 + dt * Z.of_nat k) (fun _ => None) DurationString.

(** The same, with the write number [k] (from 0) failing. *)
Definition failingAt (t0 dt : Z) (k : nat) : ServerRuntime :=
  mkServerRuntime (fun n => t0 + dt * Z.of_nat n)
                  (fun n => if (n =? k)%nat then Some "write: connection refused"
                            else None)
                  DurationString.

Definition goNet : Net := mkNet SplitHostPort.

End GoRuntime.

(** ** Sample values *)

Module Samples.

Definition peer : mux.Conn := mux.mkConn "203.0.113.9:40000".
Definition writer : mux.ResponseWriter := mux.mkResponseWriter peer.
Definition tok : list Byte.byte := [Byte.x2a; Byte.x07].

Definition observeGet (ty : message.Type_) (obs : Z) : mux.Message :=
  mux.mkMessage codes.GET ty tok (message.mkOptions ("/observe", None) (obs, None)).

Definition plainGet : mux.Message :=
  mux.mkMessage codes.GET message.Confirmable tok
    (message.mkOptions ("/observe", None) (0, Some "option not found")).

Definition post : mux.Message :=
  mux.mkMessage codes.POST message.Confirmable tok
    (message.mkOptions ("/observe", None) (0, None)).

Definition discover : mux.Message :=
  mux.mkMessage codes.GET message.NonConfirmable tok
    (message.mkOptions ("/oic/res", None) (0, Some "option not found")).

End Samples.

(** ** The server's [main], up to the point where it serves *)

Module ServerMain.

Section WithIface.

(** A network interface, as [gonet.Interfaces] lists them. *)
Variable Iface : Type.

(** What the calls of [main] into the network come back with. *)
Record Network : Type := mkNetwork {
  NewListenUDP : option error;
  Interfaces : list Iface * option error;
  ResolveUDPAddr : option error;
  JoinGroup : Iface -> option error;
  SetMulticastLoopback : option error
}.

Inductive LogEntry : Type :=
| CannotJoinGroup (iface : Iface) (e : error)
| StartingMulticastServer (addr : string).

(** [Fatal]: [log.Fatal] ended the process; [Serving]: [main] has reached
    [s.Serve(l)], with the group joined on the interfaces [joined]. *)
Inductive Progress : Type :=
| Fatal (e : error) (logs : list LogEntry)
| Serving (joined : list Iface) (logs : list LogEntry).

Definition multicastAddr : string := "224.0.1.187:5683".

(** [for i := range ifaces { err := l.JoinGroup(&iface, a); ... }] *)
Definition joinGroups (net : Network) (ifaces : list Iface)
  : list Iface * list LogEntry :=
  fold_left
    (fun (acc : list Iface * list LogEntry) iface =>
       match JoinGroup net iface with
       | Some e => (fst acc, (snd acc ++ [CannotJoinGroup iface e])%list)
       | None => ((fst acc ++ [iface])%list, snd acc)
       end)
    ifaces ([], []).

(** The second listener, on port 5688, runs in a goroutine of its own and
    is left out; so is what follows the return of [s.Serve(l)]. *)
Definition main (net : Network) : Progress :=
  match NewListenUDP net with
  | Some e => Fatal e []
  | None =>
      let (ifaces, err) := Interfaces net in
      match err with
      | Some e => Fatal e []
      | None =>
          match ResolveUDPAddr net with
          | Some e => Fatal e []
          | None =>
              let (joined, logs) := joinGroups net ifaces in
              match SetMulticastLoopback net with
              | Some e => Fatal e logs
              | None =>
                  Serving joined
                          (logs ++ [StartingMulticastServer multicastAddr])%list
              end
          end
      end
  end.

End WithIface.

Arguments mkNetwork {Iface}.
Arguments NewListenUDP {Iface}.
Arguments Interfaces {Iface}.
Arguments ResolveUDPAddr {Iface}.
Arguments JoinGroup {Iface}.
Arguments SetMulticastLoopback {Iface}.
Arguments CannotJoinGroup {Iface}.
Arguments StartingMulticastServer {Iface}.
Arguments Fatal {Iface}.
Arguments Serving {Iface}.
Arguments joinGroups {Iface}.
Arguments main {Iface}.

End ServerMain.

(** ** The handler over a sequence of requests *)

Module ServerRun.
Import Server.
Local Open Scope go_scope.

(** The test of the first [case] of the switch in [handleObserve]. *)
Definition isObserveStart (r : mux.Message) : bool :=
  (mux.Code r =? codes.GET)
  && isNil (snd (message.Observe (mux.Options r)))
  && (fst (message.Observe (mux.Options r)) =? 0).

(** The test of its second [case], once the first has failed. *)
Definition isSyncGet (r : mux.Message) : bool :=
  (mux.Code r =? codes.GET) && negb (isObserveStart r).

(** The router calls the handler once per request, in the order of
    arrival, each with the response writer of its connection. *)
Fixpoint handleAll {R : ServerRuntime}
  (reqs : list (mux.ResponseWriter * mux.Message)) : M unit :=
  match reqs with
  | [] => ret tt
  | (w, r) :: rest => handleObserve w r ;; handleAll rest
  end.

(** The goroutine that a request starts, if it starts one. *)
Definition task (wr : mux.ResponseWriter * mux.Message)
  : mux.Conn * list Byte.byte :=
  (mux.Conn_ (fst wr), mux.Token (snd wr)).

(** The request [r] with its path option read as [p]. *)
Definition withPath (p : string * option error) (r : mux.Message)
  : mux.Message :=
  mux.mkMessage (mux.Code r) (mux.Type_ r) (mux.Token r)
    (message.mkOptions p (message.Observe (mux.Options r))).

End ServerRun.

(** ** The log of the discovery, by address *)

Module ClientRun.
Import Client.

(** The address a line of the discovery log is about. *)
Definition entryAddr (e : LogEntry) : string :=
  match e with
  | ErrorParsingAddress addr _ => addr
  | SkippingLocalDevice addr => addr
  | DiscoveredDevice addr => addr
  | SelectedDevice addr => addr
  end.

End ClientRun.

(** * Properties *)

Module GoRuntimeExamples.
Import GoRuntime.

Example DurationString_0 : DurationString 0 = "0s".
Proof. reflexivity. Qed.

Example DurationString_ns : DurationString 100 = "100ns".
Proof. reflexivity. Qed.

Example DurationString_ms : DurationString 1500000 = "1.5ms".
Proof. reflexivity. Qed.

Example DurationString_s : DurationString 1000123000 = "1.000123s".
Proof. reflexivity. Qed.

Example DurationString_hms : DurationString 3725000000000 = "1h2m5s".
Proof. reflexivity. Qed.

Example SplitHostPort_v4 :
  SplitHostPort "203.0.113.5:5683" = Ok ("203.0.113.5", "5683").
Proof. reflexivity. Qed.

Example SplitHostPort_v6 :
  SplitHostPort "[2001:db8::1]:5683" = Ok ("2001:db8::1", "5683").
Proof. reflexivity. Qed.

Example SplitHostPort_empty :
  SplitHostPort "" = Err "missing port in address".
Proof. reflexivity. Qed.

Example SplitHostPort_bare_v6 :
  SplitHostPort "2001:db8::1:5688" = Err "too many colons in address".
Proof. reflexivity. Qed.

Example SplitHostPort_no_port :
  SplitHostPort "[::1]" = Err "missing port in address".
Proof. reflexivity. Qed.

Example SplitHostPort_zone :
  SplitHostPort "[fe80::1%eth0]:5683" = Ok ("fe80::1%eth0", "5683").
Proof. reflexivity. Qed.

Example SplitHostPort_colons :
  SplitHostPort "[::1]:80:90" = Err "too many colons in address".
Proof. reflexivity. Qed.

Example SplitHostPort_bracket_inside :
  SplitHostPort "a[b]:80" = Err "unexpected '[' in address".
Proof. reflexivity. Qed.

Example SplitHostPort_name :
  SplitHostPort "localhost:5683" = Ok ("localhost", "5683").
Proof. reflexivity. Qed.

End GoRuntimeExamples.

(** ** The reference parser of addresses *)

Module GoNetFacts.
Import GoRuntime.

Lemma contains_cons (a c : ascii) (s : string) :
  contains (String a s) c = Ascii.eqb a c || contains s c.
Proof.
  unfold contains. cbn [IndexByte].
  destruct (Ascii.eqb a c); [reflexivity|].
  now destruct (IndexByte s c).
Qed.

Lemma contains_append (s t : string) (c : ascii) :
  contains (s ++ t) c = contains s c || contains t c.
Proof.
  induction s as [|a s IH]; [reflexivity|].
  cbn [append]. rewrite !contains_cons, IH. now rewrite orb_assoc.
Qed.

(** A byte of a prefix is a byte of the string. *)
Lemma contains_prefix (c : ascii) (s : string) :
  forall n, contains (substring 0 n s) c = true -> contains s c = true.
Proof.
  induction s as [|a s IH]; intros [|n]; cbn [substring]; try discriminate.
  rewrite !contains_cons. intros H.
  apply orb_true_iff in H as [H|H]; apply orb_true_iff; [now left|].
  right. now apply (IH n).
Qed.

Lemma LastIndexByte_append (s t : string) (c : ascii) :
  LastIndexByte t c = Some O ->
  LastIndexByte (s ++ t) c = Some (String.length s).
Proof.
  intros H. induction s as [|a s IH]; [exact H|].
  cbn [append LastIndexByte String.length]. now rewrite IH.
Qed.

Lemma substring_whole (s : string) : substring 0 (String.length s) s = s.
Proof.
  induction s as [|a s IH]; [reflexivity|].
  cbn [String.length substring]. now rewrite IH.
Qed.

Lemma substring_prefix (s t : string) :
  substring 0 (String.length s) (s ++ t) = s.
Proof.
  induction s as [|a s IH]; [now destruct t|].
  cbn [String.length append substring]. now rewrite IH.
Qed.

Lemma from_0 (s : string) : from 0 s = s.
Proof. unfold from. rewrite Nat.sub_0_r. apply substring_whole. Qed.

Lemma from_after (s t : string) (c : ascii) :
  from (S (String.length s)) (s ++ String c t) = t.
Proof.
  unfold from. induction s as [|a s IH].
  - cbn [append String.length substring Nat.sub].
    rewrite Nat.sub_0_r. apply substring_whole.
  - cbn [append String.length substring Nat.sub] in *. exact IH.
Qed.

Lemma byteAt_0_append (s t : string) (c : ascii) :
  contains s c = false ->
  byteAt t 0 <> c ->
  byteAt (s ++ t) 0 <> c.
Proof.
  destruct s as [|a s]; [now intros _|].
  rewrite contains_cons. intros H _. apply orb_false_iff in H as [H _].
  cbn. now apply Ascii.eqb_neq.
Qed.

(** A host without colon or bracket, followed by ":5688", parses back to
    that host and the port 5688. *)
Lemma SplitHostPort_host_5688 (host : string) :
  contains host ":" = false ->
  contains host "[" = false ->
  contains host "]" = false ->
  SplitHostPort (host ++ ":5688") = Ok (host, "5688"%string).
Proof.
  intros Hc Hl Hr. unfold SplitHostPort.
  rewrite (LastIndexByte_append host ":5688" ":" eq_refl).
  assert (Hb : Ascii.eqb (byteAt (host ++ ":5688") 0) "[" = false).
  { apply Ascii.eqb_neq. apply byteAt_0_append; [exact Hl | discriminate]. }
  rewrite Hb, substring_prefix, Hc, from_0.
  rewrite !contains_append, Hl, Hr. cbn [orb].
  change (contains ":5688" "[") with false.
  change (contains ":5688" "]") with false.
  cbv iota. now rewrite (from_after host "5688" ":").
Qed.

(** An address that parses without brackets has such a host. *)
Lemma SplitHostPort_plain_host (device host port : string) :
  SplitHostPort device = Ok (host, port) ->
  byteAt device 0 <> "["%char ->
  contains host ":" = false /\ contains host "[" = false
  /\ contains host "]" = false.
Proof.
  unfold SplitHostPort. intros H Hb.
  apply Ascii.eqb_neq in Hb. rewrite Hb in H.
  destruct (LastIndexByte device ":") as [i|]; [|discriminate].
  destruct (contains (substring 0 i device) ":") eqn:Hc; [discriminate|].
  rewrite from_0 in H.
  destruct (contains device "[") eqn:Hl; [discriminate|].
  destruct (contains device "]") eqn:Hr; [discriminate|].
  injection H as <- _.
  repeat split; [exact Hc | |].
  - destruct (contains (substring 0 i device) "[") eqn:E; [|reflexivity].
    apply contains_prefix in E. congruence.
  - destruct (contains (substring 0 i device) "]") eqn:E; [|reflexivity].
    apply contains_prefix in E. congruence.
Qed.

End GoNetFacts.

(** ** Machine integers *)

Module GoIntFacts.
Import GoInt.

Lemma int64_small (z : Z) : - 2 ^ 63 <= z < 2 ^ 63 -> int64 z = z.
Proof.
  intros H. unfold int64.
  rewrite Z.mod_small; lia.
Qed.

Lemma uint32_small (z : Z) : 0 <= z < 2 ^ 32 -> uint32 z = z.
Proof. intros H. unfold uint32. now apply Z.mod_small. Qed.

End GoIntFacts.

(** ** The server *)

Module ServerFacts.
Import Server ServerSpec.
Local Open Scope go_scope.
Local Open Scope list_scope.

Section WithRuntime.
Context {R : ServerRuntime}.

Lemma sendResponse_run (cc : mux.Conn) (token : list Byte.byte)
  (subded obs : Z) (s : World) :
  sendResponse cc token subded obs s =
  (writeResult (List.length (writes s)),
   mkWorld (S (clockReads s)) (slept s)
           (writes s ++ [mkWriteEvent cc
                           (notification token (clockAt (clockReads s) - subded) obs)
                           (writeResult (List.length (writes s)))])
           (goroutines s) (response s) (logs s)).
Proof.
  unfold sendResponse, notification, bind, time_Since, time_Now, ret, WriteMessage.
  cbn. destruct (0 <=? obs); reflexivity.
Qed.

Lemma counterAt_succ (obs : Z) (i : nat) :
  counterAt obs (S i) = counterAt (GoInt.int64 (obs + 1)) i.
Proof. unfold counterAt. now rewrite Nat.iter_succ_r. Qed.

Lemma counterAt_small (i : nat) :
  forall obs, 0 <= obs -> obs + Z.of_nat i < 2 ^ 63 ->
              counterAt obs i = obs + Z.of_nat i.
Proof.
  induction i as [|i IH]; intros obs H0 Hlt.
  - cbn. lia.
  - rewrite counterAt_succ.
    rewrite GoIntFacts.int64_small by lia.
    rewrite IH by lia. lia.
Qed.

(** One turn of the loop, in full. *)
Lemma transmitLoop_step (fuel : nat) (cc : mux.Conn) (token : list Byte.byte)
  (subded obs : Z) (s : World) :
  transmitLoop (S fuel) cc token subded obs s =
  let ev := mkWriteEvent cc
              (notification token (clockAt (clockReads s) - subded) obs)
              (writeResult (List.length (writes s))) in
  match writeResult (List.length (writes s)) with
  | Some e =>
      (Returned,
       mkWorld (S (clockReads s)) (slept s) (writes s ++ [ev]) (goroutines s)
               (response s) (logs s ++ [TransmitterStopping e]))
  | None =>
      transmitLoop fuel cc token subded (GoInt.int64 (obs + 1))
        (mkWorld (S (clockReads s)) (slept s + Second) (writes s ++ [ev])
                 (goroutines s) (response s) (logs s))
  end.
Proof.
  cbn [transmitLoop]. unfold bind at 1. rewrite sendResponse_run.
  destruct (writeResult (List.length (writes s))); reflexivity.
Qed.

(** The loop only ever appends to the record of writes. *)
Lemma transmitLoop_appends (fuel : nat) (cc : mux.Conn) (token : list Byte.byte)
  (subded : Z) :
  forall obs s, exists l,
    writes (exec (transmitLoop fuel cc token subded obs) s) = writes s ++ l.
Proof.
  induction fuel as [|fuel IH]; intros obs s.
  - exists []. cbn. now rewrite app_nil_r.
  - unfold exec. rewrite transmitLoop_step. cbv zeta.
    destruct (writeResult (List.length (writes s))) as [e|].
    + eexists. reflexivity.
    + match goal with
      | |- context [transmitLoop fuel cc token subded ?o ?w] =>
          destruct (IH o w) as [l Hl]
      end.
      unfold exec in Hl. rewrite Hl. cbn [writes].
      rewrite <- app_assoc. eexists. reflexivity.
Qed.

(** The [i]-th write of a run of the loop is the notification built from
    the [i]-th reading of the clock and the [i]-th value of the counter. *)
Lemma transmitLoop_nth (fuel : nat) (cc : mux.Conn) (token : list Byte.byte)
  (subded : Z) :
  forall obs s i ev,
    nth_error (writes (exec (transmitLoop fuel cc token subded obs) s))
              (List.length (writes s) + i) = Some ev ->
    ev = mkWriteEvent cc
           (notification token (clockAt (clockReads s + i) - subded)
                         (counterAt obs i))
           (writeResult (List.length (writes s) + i)).
Proof.
  induction fuel as [|fuel IH]; intros obs s i ev H.
  - unfold exec in H. cbn [transmitLoop ret snd] in H.
    assert (Hn : nth_error (writes s) (List.length (writes s) + i) = None)
      by (apply nth_error_None; lia).
    congruence.
  - unfold exec in H. rewrite transmitLoop_step in H. cbv zeta in H.
    destruct (writeResult (List.length (writes s))) as [e|] eqn:Hw.
    + cbn [snd writes] in H.
      destruct i as [|i].
      * rewrite !Nat.add_0_r in *. rewrite nth_error_app2 in H by lia.
        rewrite Nat.sub_diag in H. cbn in H. injection H as <-.
        now rewrite Hw.
      * assert (Hn : nth_error (writes s ++ [mkWriteEvent cc
                   (notification token (clockAt (clockReads s) - subded) obs)
                   (Some e)]) (List.length (writes s) + S i) = None)
          by (apply nth_error_None; rewrite length_app; cbn; lia).
        congruence.
    + match type of H with
      | context [transmitLoop fuel cc token subded ?o ?w] =>
          set (s1 := w) in *; pose proof (IH o s1) as IH1;
          destruct (transmitLoop_appends fuel cc token subded o s1) as [l Hl]
      end.
      unfold exec in *.
      destruct i as [|i].
      * rewrite Hl in H. subst s1. cbn [writes] in H.
        rewrite !Nat.add_0_r in *.
        rewrite <- app_assoc in H. rewrite nth_error_app2 in H by lia.
        rewrite Nat.sub_diag in H. cbn in H. injection H as <-.
        now rewrite Hw.
      * specialize (IH1 i ev).
        assert (Hlen : (List.length (writes s1) + i
                        = List.length (writes s) + S i)%nat)
          by (subst s1; cbn [writes]; rewrite length_app; cbn; lia).
        rewrite Hlen in IH1. specialize (IH1 H).
        rewrite counterAt_succ.
        subst s1. cbn [clockReads] in IH1.
        now replace (clockReads s + S i)%nat with (S (clockReads s) + i)%nat by lia.
Qed.

Lemma periodicTransmitter_run (fuel : nat) (cc : mux.Conn)
  (token : list Byte.byte) (s : World) :
  periodicTransmitter fuel cc token s =
  transmitLoop fuel cc token (clockAt (clockReads s)) 2
    (mkWorld (S (clockReads s)) (slept s) (writes s) (goroutines s)
             (response s) (logs s)).
Proof. reflexivity. Qed.

Lemma periodicTransmitter_nth (fuel : nat) (cc : mux.Conn)
  (token : list Byte.byte) (s : World) (i : nat) (ev : WriteEvent) :
  nth_error (writes (exec (periodicTransmitter fuel cc token) s))
            (List.length (writes s) + i) = Some ev ->
  ev = mkWriteEvent cc
         (notification token
            (clockAt (S (clockReads s) + i) - clockAt (clockReads s))
            (counterAt 2 i))
         (writeResult (List.length (writes s) + i)).
Proof.
  unfold exec. rewrite periodicTransmitter_run. intros H.
  exact (transmitLoop_nth fuel cc token (clockAt (clockReads s)) 2
           (mkWorld (S (clockReads s)) (slept s) (writes s) (goroutines s)
                    (response s) (logs s)) i ev H).
Qed.

(** With writes that all succeed, a run of [fuel] iterations writes
    [fuel] notifications. *)
Lemma transmitLoop_length (fuel : nat) (cc : mux.Conn) (token : list Byte.byte)
  (subded : Z) :
  (forall k, writeResult k = None) ->
  forall obs s,
    List.length (writes (exec (transmitLoop fuel cc token subded obs) s))
    = (List.length (writes s) + fuel)%nat.
Proof.
  intros Hok. induction fuel as [|fuel IH]; intros obs s.
  - cbn. lia.
  - unfold exec. rewrite transmitLoop_step. cbv zeta. rewrite Hok.
    unfold exec in IH. rewrite IH. cbn [writes]. rewrite length_app. cbn. lia.
Qed.

(** A write that failed is the last thing the loop did: it has returned,
    it slept once per earlier write, and more iterations change nothing. *)
Lemma transmitLoop_failed_last (fuel : nat) (cc : mux.Conn)
  (token : list Byte.byte) (subded : Z) :
  forall obs s i ev e,
    nth_error (writes (exec (transmitLoop fuel cc token subded obs) s))
              (List.length (writes s) + i) = Some ev ->
    wErr ev = Some e ->
    fst (transmitLoop fuel cc token subded obs s) = Returned
    /\ List.length (writes (exec (transmitLoop fuel cc token subded obs) s))
       = (List.length (writes s) + S i)%nat
    /\ slept (exec (transmitLoop fuel cc token subded obs) s)
       = slept s + Z.of_nat i * Second
    /\ forall fuel', (fuel <= fuel')%nat ->
         transmitLoop fuel' cc token subded obs s
         = transmitLoop fuel cc token subded obs s.
Proof.
  induction fuel as [|fuel IH]; intros obs s i ev e H He.
  - unfold exec in H. cbn [transmitLoop ret snd] in H.
    assert (Hn : nth_error (writes s) (List.length (writes s) + i) = None)
      by (apply nth_error_None; lia).
    congruence.
  - pose proof (transmitLoop_nth _ _ _ _ _ _ _ _ H) as Hev.
    unfold exec in *. rewrite transmitLoop_step in *. cbv zeta in *.
    destruct (writeResult (List.length (writes s))) as [e0|] eqn:Hw.
    + cbn [fst snd writes slept] in *.
      assert (i = O) as ->.
      { destruct i as [|i]; [reflexivity|].
        assert (Hn : nth_error (writes s ++ [mkWriteEvent cc
                   (notification token (clockAt (clockReads s) - subded) obs)
                   (Some e0)]) (List.length (writes s) + S i) <> None)
          by congruence.
        apply nth_error_Some in Hn. rewrite length_app in Hn. cbn in Hn. lia. }
      rewrite length_app. cbn [List.length].
      repeat split; try lia.
      intros [|fuel'] Hle; [lia|].
      rewrite transmitLoop_step. cbv zeta. now rewrite Hw.
    + destruct i as [|i].
      * rewrite !Nat.add_0_r in Hev. rewrite Hw in Hev. subst ev. discriminate.
      * match goal with
        | |- context [transmitLoop fuel cc token subded ?o ?w] =>
            specialize (IH o w i ev e)
        end.
        cbn [writes slept] in IH. rewrite length_app in IH. cbn [List.length] in IH.
        replace (List.length (writes s) + 1 + i)%nat
          with (List.length (writes s) + S i)%nat in IH by lia.
        destruct (IH H He) as (Hr & Hl & Hs & Hf).
        repeat split; try assumption; try lia.
        intros [|fuel'] Hle; [lia|].
        rewrite transmitLoop_step. cbv zeta. rewrite Hw.
        apply Hf. lia.
Qed.

(** The loop gets as far as the first write that fails, given that many
    iterations. *)
Lemma transmitLoop_reaches (fuel : nat) (cc : mux.Conn)
  (token : list Byte.byte) (subded : Z) :
  forall k obs s,
    (k < fuel)%nat ->
    (forall j, (j < k)%nat -> writeResult (List.length (writes s) + j) = None) ->
    exists ev,
      nth_error (writes (exec (transmitLoop fuel cc token subded obs) s))
                (List.length (writes s) + k) = Some ev.
Proof.
  induction fuel as [|fuel IH]; intros k obs s Hk Hok; [lia|].
  unfold exec. rewrite transmitLoop_step. cbv zeta.
  destruct k as [|k].
  - rewrite Nat.add_0_r.
    destruct (writeResult (List.length (writes s))) as [e|].
    + cbn [snd writes]. rewrite nth_error_app2 by lia.
      rewrite Nat.sub_diag. eexists. reflexivity.
    + match goal with
      | |- context [transmitLoop fuel cc token subded ?o ?w] =>
          destruct (transmitLoop_appends fuel cc token subded o w) as [l Hl]
      end.
      unfold exec in Hl. rewrite Hl. cbn [writes].
      rewrite <- app_assoc. rewrite nth_error_app2 by lia.
      rewrite Nat.sub_diag. eexists. reflexivity.
  - pose proof (Hok O ltac:(lia)) as H0. rewrite Nat.add_0_r in H0.
    rewrite H0.
    match goal with
    | |- context [transmitLoop fuel cc token subded ?o ?w] =>
        destruct (IH k o w) as [ev Hev]
    end.
    + lia.
    + intros j Hj. cbn [writes]. rewrite length_app. cbn [List.length].
      replace (List.length (writes s) + 1 + j)%nat
        with (List.length (writes s) + S j)%nat by lia.
      apply Hok. lia.
    + exists ev. unfold exec in Hev. cbn [writes] in Hev.
      rewrite length_app in Hev. cbn [List.length] in Hev.
      now replace (List.length (writes s) + S k)%nat
        with (List.length (writes s) + 1 + k)%nat by lia.
Qed.

(** What the three arms of the switch in [handleObserve] do. *)
Lemma handleObserve_start (w : mux.ResponseWriter) (r : mux.Message)
  (s : World) :
  observeStart r ->
  let s' := exec (handleObserve w r) s in
  goroutines s' = goroutines s ++ [(mux.Conn_ w, mux.Token r)]
  /\ writes s' = writes s /\ response s' = response s
  /\ clockReads s' = clockReads s.
Proof.
  destruct r as [code ty tok [[path perr] [obs oerr]]].
  unfold observeStart. cbn. intros (-> & -> & ->).
  unfold exec, handleObserve, getPath, bind. cbn.
  destruct perr; cbn; auto.
Qed.

Lemma handleObserve_sync (w : mux.ResponseWriter) (r : mux.Message)
  (s : World) :
  mux.Code r = codes.GET ->
  isNil (snd (message.Observe (mux.Options r)))
  && (fst (message.Observe (mux.Options r)) =? 0) = false ->
  let s' := exec (handleObserve w r) s in
  writes s' = writes s ++ [mkWriteEvent (mux.Conn_ w)
                 (notification (mux.Token r)
                    (clockAt (S (clockReads s)) - clockAt (clockReads s)) (-1))
                 (writeResult (List.length (writes s)))]
  /\ goroutines s' = goroutines s /\ response s' = response s.
Proof.
  destruct r as [code ty tok [[path perr] [obs oerr]]].
  cbn. intros -> Hno.
  unfold exec, handleObserve, getPath, bind. cbn.
  rewrite Hno.
  destruct perr; cbn;
    destruct (writeResult (List.length (writes s))); repeat split; reflexivity.
Qed.

Lemma handleObserve_other (w : mux.ResponseWriter) (r : mux.Message)
  (s : World) :
  mux.Code r <> codes.GET ->
  let s' := exec (handleObserve w r) s in
  writes s' = writes s /\ goroutines s' = goroutines s
  /\ response s' = response s /\ clockReads s' = clockReads s.
Proof.
  destruct r as [code ty tok [[path perr] [obs oerr]]].
  cbn. intros Hc. apply Z.eqb_neq in Hc.
  unfold exec, handleObserve, getPath, bind. cbn.
  rewrite Hc. cbn.
  destruct perr; cbn; auto.
Qed.

Lemma periodicTransmitter_push_exists (fuel : nat) (cc : mux.Conn)
  (token : list Byte.byte) (s : World) (i : nat) :
  (forall k, writeResult k = None) ->
  (i < fuel)%nat ->
  exists ev,
    nth_error (writes (exec (periodicTransmitter fuel cc token) s))
              (List.length (writes s) + i) = Some ev.
Proof.
  intros Hok Hlt.
  destruct (nth_error (writes (exec (periodicTransmitter fuel cc token) s))
                      (List.length (writes s) + i)) as [ev|] eqn:He.
  - now exists ev.
  - apply nth_error_None in He. unfold exec in He.
    rewrite periodicTransmitter_run in He.
    pose proof (transmitLoop_length fuel cc token (clockAt (clockReads s)) Hok 2
                  (mkWorld (S (clockReads s)) (slept s) (writes s)
                           (goroutines s) (response s) (logs s))) as Hl.
    unfold exec in Hl. cbn [writes] in Hl. lia.
Qed.

(** The observe value of the [i]-th notification, while the counter has
    not left the range of [int64]. *)
Lemma notification_observe (token : list Byte.byte) (d : Z) (i : nat) :
  2 + Z.of_nat i < 2 ^ 63 ->
  pool.Observe (notification token d (counterAt 2 i))
  = Some (GoInt.uint32 (2 + Z.of_nat i)).
Proof.
  intros Hlt. rewrite counterAt_small by lia.
  unfold notification. cbn [pool.Observe].
  destruct (Z.leb_spec 0 (2 + Z.of_nat i)); [reflexivity | lia].
Qed.

Lemma observeStart_dec (r : mux.Message) :
  observeStart r
  \/ (mux.Code r = codes.GET
      /\ isNil (snd (message.Observe (mux.Options r)))
         && (fst (message.Observe (mux.Options r)) =? 0) = false)
  \/ mux.Code r <> codes.GET.
Proof.
  unfold observeStart.
  destruct (Z.eq_dec (mux.Code r) codes.GET) as [Hc|Hc]; [|now right; right].
  destruct (message.Observe (mux.Options r)) as [obs [e|]]; cbn.
  - right; left. now split.
  - destruct (Z.eqb_spec obs 0) as [->|Hn]; [now left|].
    right; left. now split.
Qed.

End WithRuntime.

End ServerFacts.

(** ** The server: the claims *)

Module ServerClaims.
Import Server ServerSpec ServerFacts Samples.
Local Open Scope list_scope.

(** C1, as amended. [handleObserve] starts a periodic transmitter for the
    connection and the token of the request if and only if the request is
    a GET whose observe option reads 0 without error; the type of the
    message (confirmable or not) is not looked at. When it starts one it
    gives no synchronous response: it writes nothing to the connection
    and sets nothing in the response writer. Otherwise it starts none. *)
Theorem handleObserve_spawns_iff_observe_start {R : ServerRuntime}
  (w : mux.ResponseWriter) (r : mux.Message) (s : World) :
  (goroutines (exec (handleObserve w r) s)
   = goroutines s ++ [(mux.Conn_ w, mux.Token r)]
   <-> observeStart r)
  /\ (observeStart r ->
      writes (exec (handleObserve w r) s) = writes s
      /\ response (exec (handleObserve w r) s) = response s)
  /\ (~ observeStart r ->
      goroutines (exec (handleObserve w r) s) = goroutines s).
Proof.
  assert (Hno : ~ observeStart r ->
                goroutines (exec (handleObserve w r) s) = goroutines s).
  { intros Hn.
    destruct (observeStart_dec r) as [H | [[Hc Hs] | Hc]]; [contradiction | |].
    - now destruct (handleObserve_sync w r s Hc Hs) as (_ & Hg & _).
    - now destruct (handleObserve_other w r s Hc) as (_ & Hg & _). }
  split; [split|split].
  - intros Hg.
    destruct (observeStart_dec r) as [H | [[Hc Hs] | Hc]]; [assumption | |];
      exfalso.
    + destruct (handleObserve_sync w r s Hc Hs) as (_ & Hg' & _).
      rewrite Hg' in Hg. apply (f_equal (@List.length _)) in Hg.
      rewrite length_app in Hg. cbn in Hg. lia.
    + destruct (handleObserve_other w r s Hc) as (_ & Hg' & _).
      rewrite Hg' in Hg. apply (f_equal (@List.length _)) in Hg.
      rewrite length_app in Hg. cbn in Hg. lia.
  - intros H. now destruct (handleObserve_start w r s H) as (Hg & _).
  - intros H. destruct (handleObserve_start w r s H) as (_ & Hw & Hr & _).
    now split.
  - exact Hno.
Qed.

(** C1 as stated fails: a non-confirmable GET with observe 0 starts the
    transmitter all the same. *)
Lemma non_confirmable_get_starts_transmitter :
  mux.Type_ (observeGet message.NonConfirmable 0) = message.NonConfirmable
  /\ goroutines (exec (handleObserve (R := GoRuntime.steady 0 1) writer
                         (observeGet message.NonConfirmable 0)) idle)
     = [(peer, tok)]
  /\ writes (exec (handleObserve (R := GoRuntime.steady 0 1) writer
                     (observeGet message.NonConfirmable 0)) idle) = [].
Proof. repeat split. Qed.

(** C2, as amended. While the counter is below 2^32, that is for the first
    2^32 - 2 notifications of a transmitter, the [i]-th notification (from
    0) carries the observe value 2 + i: 2, 3, 4, ..., so that a later one
    of these carries a strictly larger value. *)
Theorem transmitter_sequence_numbers {R : ServerRuntime}
  (fuel : nat) (cc : mux.Conn) (token : list Byte.byte) (s : World)
  (i : nat) (ei : WriteEvent) :
  nth_error (writes (exec (periodicTransmitter fuel cc token) s))
            (List.length (writes s) + i) = Some ei ->
  2 + Z.of_nat i < 2 ^ 32 ->
  pool.Observe (wMsg ei) = Some (2 + Z.of_nat i)
  /\ forall j ej,
      (i < j)%nat -> 2 + Z.of_nat j < 2 ^ 32 ->
      nth_error (writes (exec (periodicTransmitter fuel cc token) s))
                (List.length (writes s) + j) = Some ej ->
      exists b, pool.Observe (wMsg ej) = Some b /\ 2 + Z.of_nat i < b.
Proof.
  intros Hi Hlt.
  assert (Hobs : forall k ek,
             2 + Z.of_nat k < 2 ^ 32 ->
             nth_error (writes (exec (periodicTransmitter fuel cc token) s))
                       (List.length (writes s) + k) = Some ek ->
             pool.Observe (wMsg ek) = Some (2 + Z.of_nat k)).
  { intros k ek Hk Hek. apply periodicTransmitter_nth in Hek. subst ek.
    cbn [wMsg]. rewrite notification_observe by lia.
    now rewrite GoIntFacts.uint32_small by lia. }
  split.
  - now apply Hobs.
  - intros j ej Hij Hj Hej. exists (2 + Z.of_nat j). split.
    + now apply Hobs.
    + lia.
Qed.

Lemma transmitter_sequence_numbers_witness :
  exists e,
    nth_error (writes (exec (periodicTransmitter (R := GoRuntime.steady 0 1000000000)
                               3 peer tok) idle)) 0 = Some e
    /\ pool.Observe (wMsg e) = Some 2.
Proof.
  eexists. split.
  - vm_compute. reflexivity.
  - refine (proj1 (transmitter_sequence_numbers
                     (R := GoRuntime.steady 0 1000000000) 3 peer tok idle 0 _ _ _)).
    + vm_compute. reflexivity.
    + reflexivity.
Defined.

(** C2 as stated fails: the value attached is [uint32(obs)], so of two
    successive notifications the first carries 4294967295 and the next 0. *)
Lemma sequence_number_wraps :
  exists e1 e2,
    nth_error (writes (exec (periodicTransmitter (R := GoRuntime.steady 0 1000000000)
                               (Z.to_nat 4294967296) peer tok) idle))
              (Z.to_nat 4294967293) = Some e1
    /\ nth_error (writes (exec (periodicTransmitter (R := GoRuntime.steady 0 1000000000)
                                  (Z.to_nat 4294967296) peer tok) idle))
                 (Z.to_nat 4294967294) = Some e2
    /\ pool.Observe (wMsg e1) = Some 4294967295
    /\ pool.Observe (wMsg e2) = Some 0.
Proof.
  assert (Hgen : forall n i, (i < n)%nat -> 2 + Z.of_nat i < 2 ^ 63 ->
            exists e,
              nth_error (writes (exec (periodicTransmitter
                                         (R := GoRuntime.steady 0 1000000000)
                                         n peer tok) idle)) i = Some e
              /\ pool.Observe (wMsg e) = Some (GoInt.uint32 (2 + Z.of_nat i))).
  { intros n i Hin Hi.
    destruct (periodicTransmitter_push_exists (R := GoRuntime.steady 0 1000000000)
                n peer tok idle i (fun _ => eq_refl) Hin) as [ev Hev].
    exists ev. split; [exact Hev|].
    apply periodicTransmitter_nth in Hev. subst ev. cbn [wMsg].
    now apply notification_observe. }
  destruct (Hgen (Z.to_nat 4294967296) (Z.to_nat 4294967293)) as (e1 & H1 & O1);
    [lia | rewrite Z2Nat.id; lia |].
  destruct (Hgen (Z.to_nat 4294967296) (Z.to_nat 4294967294)) as (e2 & H2 & O2);
    [lia | rewrite Z2Nat.id; lia |].
  exists e1, e2. rewrite Z2Nat.id in O1, O2 by lia.
  exact (conj H1 (conj H2 (conj O1 O2))).
Qed.

(** C3, as amended. A GET without observe option (the accessor reports an
    error) is answered exactly once: by one call of [WriteMessage] on the
    connection of the request, and by nothing set in the response writer.
    The message has the code Content, the token of the request, the
    format text/plain, no observe option, and the body "Been running for
    <d>" where d is the time between two readings of the clock that the
    handler itself takes, one right after the other. No transmitter is
    started. *)
Theorem plain_get_answered_once {R : ServerRuntime}
  (w : mux.ResponseWriter) (r : mux.Message) (s : World) (e : error) :
  mux.Code r = codes.GET ->
  snd (message.Observe (mux.Options r)) = Some e ->
  writes (exec (handleObserve w r) s)
  = writes s ++ [mkWriteEvent (mux.Conn_ w)
       (pool.mkMessage codes.Content (mux.Token r)
          ("Been running for "
           ++ formatDuration (clockAt (S (clockReads s)) - clockAt (clockReads s)))%string
          (Some message.TextPlain) None)
       (writeResult (List.length (writes s)))]
  /\ response (exec (handleObserve w r) s) = response s
  /\ goroutines (exec (handleObserve w r) s) = goroutines s.
Proof.
  intros Hc He.
  destruct (handleObserve_sync w r s Hc) as (Hw & Hg & Hr).
  - now rewrite He.
  - repeat split; assumption.
Qed.

Lemma plain_get_answered_once_witness :
  map (fun ev => (pool.Body (wMsg ev), pool.Observe (wMsg ev)))
      (writes (exec (handleObserve (R := GoRuntime.steady 5000000000 100)
                       writer plainGet) idle))
  = [("Been running for 100ns", None)]
  /\ response (exec (handleObserve (R := GoRuntime.steady 5000000000 100)
                       writer plainGet) idle) = None
  /\ goroutines (exec (handleObserve (R := GoRuntime.steady 5000000000 100)
                         writer plainGet) idle) = [].
Proof.
  destruct (plain_get_answered_once (R := GoRuntime.steady 5000000000 100)
              writer plainGet idle "option not found" eq_refl eq_refl)
    as (Hw & Hr & Hg).
  split; [|split].
  - rewrite Hw. reflexivity.
  - exact Hr.
  - exact Hg.
Defined.

(** C3 as stated fails: the server has been up for five seconds, and the
    reply to a plain GET reads "Been running for 100ns", the time between
    the handler's own two readings of the clock. *)
Lemma plain_get_does_not_report_uptime :
  map (fun ev => pool.Body (wMsg ev))
      (writes (exec (handleObserve (R := GoRuntime.steady 5000000000 100)
                       writer plainGet) idle))
  = ["Been running for 100ns"%string]
  /\ uptimeBody (R := GoRuntime.steady 5000000000 100) 0
                (clockAt (ServerRuntime := GoRuntime.steady 5000000000 100) 0)
     = "Been running for 5s"%string
  /\ uptimeBody (R := GoRuntime.steady 5000000000 100) 0
                (clockAt (ServerRuntime := GoRuntime.steady 5000000000 100) 1)
     = "Been running for 5.0000001s"%string.
Proof. split; [|split]; vm_compute; reflexivity. Qed.

(** C4. A write of the transmitter that failed is its last: the function
    has returned, nothing was written after the failed message (no retry),
    it slept one second per earlier write and not at all after the failure
    (no backoff), and however many more iterations the loop is granted,
    the outcome is the same. *)
Theorem transmitter_stops_at_write_error {R : ServerRuntime}
  (fuel : nat) (cc : mux.Conn) (token : list Byte.byte) (s : World)
  (i : nat) (ev : WriteEvent) (e : error) :
  nth_error (writes (exec (periodicTransmitter fuel cc token) s))
            (List.length (writes s) + i) = Some ev ->
  wErr ev = Some e ->
  fst (periodicTransmitter fuel cc token s) = Returned
  /\ List.length (writes (exec (periodicTransmitter fuel cc token) s))
     = (List.length (writes s) + S i)%nat
  /\ slept (exec (periodicTransmitter fuel cc token) s)
     = slept s + Z.of_nat i * Second
  /\ forall fuel', (fuel <= fuel')%nat ->
       periodicTransmitter fuel' cc token s = periodicTransmitter fuel cc token s.
Proof.
  unfold exec. rewrite periodicTransmitter_run. intros H He.
  destruct (transmitLoop_failed_last fuel cc token (clockAt (clockReads s)) 2
              (mkWorld (S (clockReads s)) (slept s) (writes s) (goroutines s)
                       (response s) (logs s)) i ev e H He)
    as (Hr & Hl & Hs & Hf).
  exact (conj Hr (conj Hl (conj Hs Hf))).
Qed.

Lemma transmitter_stops_at_write_error_witness :
  fst (periodicTransmitter (R := GoRuntime.failingAt 0 1000000000 2)
         10 peer tok idle) = Returned
  /\ List.length (writes (exec (periodicTransmitter
                                  (R := GoRuntime.failingAt 0 1000000000 2)
                                  10 peer tok) idle)) = 3%nat
  /\ slept (exec (periodicTransmitter (R := GoRuntime.failingAt 0 1000000000 2)
                    10 peer tok) idle) = 2000000000
  /\ forall fuel', (10 <= fuel')%nat ->
       periodicTransmitter (R := GoRuntime.failingAt 0 1000000000 2)
         fuel' peer tok idle
       = periodicTransmitter (R := GoRuntime.failingAt 0 1000000000 2)
           10 peer tok idle.
Proof.
  refine (transmitter_stops_at_write_error
            (R := GoRuntime.failingAt 0 1000000000 2) 10 peer tok idle 2
            (mkWriteEvent peer
               (notification (R := GoRuntime.failingAt 0 1000000000 2)
                  tok 3000000000 4)
               (Some "write: connection refused"%string))
            "write: connection refused"%string _ _).
  - vm_compute. reflexivity.
  - reflexivity.
Defined.

(** When the [k]-th write of a transmitter is the first to fail, the
    transmitter returns, after these [k] + 1 writes, as soon as it is granted
    more than [k] iterations. *)
Theorem transmitter_returns_on_first_error {R : ServerRuntime}
  (fuel : nat) (cc : mux.Conn) (token : list Byte.byte) (s : World)
  (k : nat) (e : error) :
  (forall j, (j < k)%nat -> writeResult (List.length (writes s) + j) = None) ->
  writeResult (List.length (writes s) + k) = Some e ->
  (k < fuel)%nat ->
  fst (periodicTransmitter fuel cc token s) = Returned
  /\ List.length (writes (exec (periodicTransmitter fuel cc token) s))
     = (List.length (writes s) + S k)%nat.
Proof.
  intros Hok He Hk.
  destruct (transmitLoop_reaches fuel cc token (clockAt (clockReads s)) k 2
              (mkWorld (S (clockReads s)) (slept s) (writes s) (goroutines s)
                       (response s) (logs s)) Hk Hok) as [ev Hev].
  pose proof (periodicTransmitter_nth fuel cc token s k ev Hev) as Hw.
  assert (Hf : wErr ev = Some e) by (subst ev; exact He).
  destruct (transmitLoop_failed_last fuel cc token (clockAt (clockReads s)) 2
              (mkWorld (S (clockReads s)) (slept s) (writes s) (goroutines s)
                       (response s) (logs s)) k ev e Hev Hf)
    as (Hr & Hl & _).
  unfold exec. rewrite periodicTransmitter_run. split; assumption.
Qed.

Lemma transmitter_returns_on_first_error_witness :
  fst (periodicTransmitter (R := GoRuntime.failingAt 0 1000000000 2)
         3 peer tok idle) = Returned
  /\ List.length (writes (exec (periodicTransmitter
                                  (R := GoRuntime.failingAt 0 1000000000 2)
                                  3 peer tok) idle)) = 3%nat.
Proof.
  refine (transmitter_returns_on_first_error
            (R := GoRuntime.failingAt 0 1000000000 2) 3 peer tok idle 2
            "write: connection refused"%string _ eq_refl _).
  - intros [|[|j]] Hj; [reflexivity | reflexivity | lia].
  - lia.
Defined.

(** C8. The response [handleMcast] sets has the body "mcast response"
    and the content format text/plain; the [i]-th notification of a
    transmitter has the content format text/plain and the body "Been
    running for " followed by the formatted time between the reading of
    the clock at the start of the transmitter and the reading taken for
    that notification. *)
Theorem response_bodies {R : ServerRuntime} :
  (forall w r s m,
      response (exec (handleMcast w r) s) = Some m ->
      response (exec (handleMcast w r) s) = response s
      \/ m = pool.mkMessage codes.Content [] "mcast response"
                            (Some message.TextPlain) None)
  /\ (forall fuel cc token s i ev,
         nth_error (writes (exec (periodicTransmitter fuel cc token) s))
                   (List.length (writes s) + i) = Some ev ->
         pool.Body (wMsg ev)
         = ("Been running for "
            ++ formatDuration (clockAt (S (clockReads s) + i)
                               - clockAt (clockReads s)))%string
         /\ pool.ContentFormat (wMsg ev) = Some message.TextPlain).
Proof.
  split.
  - intros w r s m.
    destruct r as [code ty tk [[path perr] oo]].
    unfold exec, handleMcast, bind. cbn.
    destruct perr as [e|]; cbn.
    + intros _. now left.
    + intros [= <-]. now right.
  - intros fuel cc token s i ev H.
    apply periodicTransmitter_nth in H. subst ev. now split.
Qed.

Lemma response_bodies_witness :
  option_map pool.Body
    (response (exec (handleMcast writer discover) idle))
  = Some "mcast response"%string
  /\ map (fun ev => pool.Body (wMsg ev))
         (writes (exec (periodicTransmitter (R := GoRuntime.steady 0 1000000000)
                          2 peer tok) idle))
     = ["Been running for 1s"%string; "Been running for 2s"%string]
  /\ exists ev,
       nth_error (writes (exec (periodicTransmitter
                                  (R := GoRuntime.steady 0 1000000000)
                                  2 peer tok) idle)) 1 = Some ev
       /\ pool.Body (wMsg ev) = "Been running for 2s"%string.
Proof.
  split; [reflexivity | split; [reflexivity |]].
  eexists. split.
  - vm_compute. reflexivity.
  - refine (proj1 (proj2 (@response_bodies (GoRuntime.steady 0 1000000000))
                     2%nat peer tok idle 1%nat _ _)).
    vm_compute. reflexivity.
Defined.

(** C9. A GET whose observe option reads a value other than 0 (1, say,
    which cancels a registration) gets exactly one response: one call of
    [WriteMessage], on the connection and with the token of the request,
    whose message has no observe option, and nothing set in the response
    writer. No transmitter is started. *)
Theorem nonzero_observe_answered_once {R : ServerRuntime}
  (w : mux.ResponseWriter) (r : mux.Message) (s : World) (obs : Z) :
  mux.Code r = codes.GET ->
  message.Observe (mux.Options r) = (obs, None) ->
  obs <> 0 ->
  (exists ev,
      writes (exec (handleObserve w r) s) = writes s ++ [ev]
      /\ wConn ev = mux.Conn_ w
      /\ pool.Token (wMsg ev) = mux.Token r
      /\ pool.Observe (wMsg ev) = None)
  /\ response (exec (handleObserve w r) s) = response s
  /\ goroutines (exec (handleObserve w r) s) = goroutines s.
Proof.
  intros Hc Ho Hn.
  destruct (handleObserve_sync w r s Hc) as (Hw & Hg & Hr).
  - rewrite Ho. cbn. now apply Z.eqb_neq.
  - split; [|split; assumption].
    eexists. split; [exact Hw|]. now repeat split.
Qed.

Lemma nonzero_observe_answered_once_witness :
  (exists ev,
      writes (exec (handleObserve (R := GoRuntime.steady 0 100) writer
                      (observeGet message.Confirmable 1)) idle) = [ev]
      /\ wConn ev = peer
      /\ pool.Token (wMsg ev) = tok
      /\ pool.Observe (wMsg ev) = None)
  /\ response (exec (handleObserve (R := GoRuntime.steady 0 100) writer
                       (observeGet message.Confirmable 1)) idle) = None
  /\ goroutines (exec (handleObserve (R := GoRuntime.steady 0 100) writer
                         (observeGet message.Confirmable 1)) idle) = [].
Proof.
  refine (nonzero_observe_answered_once (R := GoRuntime.steady 0 100)
            writer (observeGet message.Confirmable 1) idle 1 eq_refl eq_refl _).
  discriminate.
Defined.

(** C10. On a request whose code is not GET the handler writes nothing to
    the connection, sets no response and starts no transmitter. *)
Theorem non_get_is_ignored {R : ServerRuntime}
  (w : mux.ResponseWriter) (r : mux.Message) (s : World) :
  mux.Code r <> codes.GET ->
  writes (exec (handleObserve w r) s) = writes s
  /\ response (exec (handleObserve w r) s) = response s
  /\ goroutines (exec (handleObserve w r) s) = goroutines s.
Proof.
  intros Hc.
  destruct (handleObserve_other w r s Hc) as (Hw & Hg & Hr & _).
  now repeat split.
Qed.

Lemma non_get_is_ignored_witness :
  writes (exec (handleObserve (R := GoRuntime.steady 0 100) writer post) idle) = []
  /\ response (exec (handleObserve (R := GoRuntime.steady 0 100) writer post) idle)
     = None
  /\ goroutines (exec (handleObserve (R := GoRuntime.steady 0 100) writer post) idle)
     = [].
Proof.
  refine (non_get_is_ignored (R := GoRuntime.steady 0 100) writer post idle _).
  discriminate.
Defined.

End ServerClaims.

(** ** The client *)

Module ClientFacts.
Import Client ClientSpec.
Local Open Scope list_scope.

Section WithNet.
Context {N : Net}.

Lemma DiscoveryRequest_cons (cb : string -> State -> State) (a : string)
  (rest : list string) (st : State) :
  DiscoveryRequest cb (a :: rest) st = DiscoveryRequest cb rest (cb a st).
Proof. reflexivity. Qed.

Lemma selectFirst_set (addr : string) (st : State) :
  firstDevice st <> ""%string ->
  selectFirst addr st = st.
Proof.
  intros H. unfold selectFirst.
  apply String.eqb_neq in H. now rewrite H.
Qed.

Lemma selectFirst_unset (addr : string) (st : State) :
  firstDevice st = ""%string ->
  selectFirst addr st
  = mkState addr (deviceFound st ++ [true]) (logs st) (parked st).
Proof. intros H. unfold selectFirst. now rewrite H. Qed.

(** Once [firstDevice] is set, neither callback touches it or the channel. *)
Lemma discoveryCallback_set (addr : string) (st : State) :
  firstDevice st <> ""%string ->
  firstDevice (discoveryCallback addr st) = firstDevice st
  /\ deviceFound (discoveryCallback addr st) = deviceFound st.
Proof.
  intros H. unfold discoveryCallback.
  destruct (SplitHostPort addr) as [[host port]|e]; [|now split].
  destruct (isLocal host); [now split|].
  rewrite selectFirst_set by exact H. now split.
Qed.

Lemma discoveryCallback2_set (addr : string) (st : State) :
  firstDevice st <> ""%string ->
  firstDevice (discoveryCallback2 addr st) = firstDevice st
  /\ deviceFound (discoveryCallback2 addr st) = deviceFound st.
Proof.
  intros H. unfold discoveryCallback2.
  apply String.eqb_neq in H. rewrite H. now split.
Qed.

(** A callback that leaves a set [firstDevice] alone does so over a whole
    run of responses. *)
Lemma DiscoveryRequest_set (cb : string -> State -> State) :
  (forall addr st, firstDevice st <> ""%string ->
                   firstDevice (cb addr st) = firstDevice st
                   /\ deviceFound (cb addr st) = deviceFound st) ->
  forall responses st,
    firstDevice st <> ""%string ->
    firstDevice (DiscoveryRequest cb responses st) = firstDevice st
    /\ deviceFound (DiscoveryRequest cb responses st) = deviceFound st.
Proof.
  intros Hcb. induction responses as [|a rest IH]; intros st H.
  - now split.
  - rewrite DiscoveryRequest_cons.
    destruct (Hcb a st H) as [Hf Hd].
    destruct (IH (cb a st)) as [Hf' Hd']; [congruence|].
    split; congruence.
Qed.

(** The first program steps over a response that is not a device. *)
Lemma discoveryCallback_skips (addr : string) (st : State) :
  nonLocal addr = false ->
  firstDevice (discoveryCallback addr st) = firstDevice st
  /\ deviceFound (discoveryCallback addr st) = deviceFound st.
Proof.
  unfold nonLocal, discoveryCallback.
  destruct (SplitHostPort addr) as [[host port]|e]; [|now split].
  destruct (isLocal host); [now split | discriminate].
Qed.

Lemma discoveryCallback_takes (addr : string) (st : State) :
  nonLocal addr = true ->
  firstDevice st = ""%string ->
  firstDevice (discoveryCallback addr st) = addr
  /\ deviceFound (discoveryCallback addr st) = deviceFound st ++ [true].
Proof.
  unfold nonLocal, discoveryCallback.
  destruct (SplitHostPort addr) as [[host port]|e]; [|discriminate].
  destruct (isLocal host); [discriminate|].
  intros _ H. rewrite selectFirst_unset by exact H. now split.
Qed.

Lemma DiscoveryRequest_first_nonLocal (a : string) :
  a <> ""%string ->
  forall responses st,
    find nonLocal responses = Some a ->
    firstDevice st = ""%string ->
    firstDevice (DiscoveryRequest discoveryCallback responses st) = a
    /\ deviceFound (DiscoveryRequest discoveryCallback responses st)
       = deviceFound st ++ [true].
Proof.
  intros Ha. induction responses as [|x rest IH]; intros st Hfind Hst.
  - discriminate.
  - rewrite DiscoveryRequest_cons. cbn [find] in Hfind.
    destruct (nonLocal x) eqn:Hx.
    + injection Hfind as ->.
      destruct (discoveryCallback_takes a st Hx Hst) as [Hf Hd].
      destruct (DiscoveryRequest_set discoveryCallback discoveryCallback_set
                  rest (discoveryCallback a st)) as [Hf' Hd']; [congruence|].
      split; congruence.
    + destruct (discoveryCallback_skips x st Hx) as [Hf Hd].
      destruct (IH (discoveryCallback x st) Hfind) as [Hf' Hd']; [congruence|].
      split; congruence.
Qed.

(** With no device among the responses the first program selects nothing. *)
Lemma DiscoveryRequest_no_device :
  forall responses st,
    forallb (fun a => negb (nonLocal a)) responses = true ->
    firstDevice (DiscoveryRequest discoveryCallback responses st) = firstDevice st
    /\ deviceFound (DiscoveryRequest discoveryCallback responses st)
       = deviceFound st.
Proof.
  induction responses as [|x rest IH]; intros st H.
  - now split.
  - rewrite DiscoveryRequest_cons. cbn [forallb] in H.
    apply andb_true_iff in H as [Hx Hrest]. apply negb_true_iff in Hx.
    destruct (discoveryCallback_skips x st Hx) as [Hf Hd].
    destruct (IH (discoveryCallback x st) Hrest) as [Hf' Hd'].
    split; congruence.
Qed.

(** With every call returning [nil], the two programs are what follows
    the discovery. *)
Lemma main_succeed (responses : list string) :
  main succeed responses
  = match deviceFound (DiscoveryRequest discoveryCallback responses start) with
    | _ :: _ =>
        connect (log_Printf
                   (SelectedDevice
                      (firstDevice (DiscoveryRequest discoveryCallback
                                      responses start)))
                   (DiscoveryRequest discoveryCallback responses start))
    | [] => Fatal "Timeout: No non-local devices found"
    end.
Proof. reflexivity. Qed.

Lemma main2_succeed (responses : list string) :
  main2 succeed responses
  = match deviceFound (DiscoveryRequest discoveryCallback2 responses start) with
    | _ :: _ =>
        connect (log_Printf
                   (SelectedDevice
                      (firstDevice (DiscoveryRequest discoveryCallback2
                                      responses start)))
                   (DiscoveryRequest discoveryCallback2 responses start))
    | [] => Waiting
    end.
Proof. reflexivity. Qed.

(** In the second program a first response with an address decides. *)
Lemma main2_first (a : string) (rest : list string) :
  a <> ""%string ->
  firstDevice (DiscoveryRequest discoveryCallback2 (a :: rest) start) = a
  /\ deviceFound (DiscoveryRequest discoveryCallback2 (a :: rest) start) = [true]
  /\ main2 succeed (a :: rest)
     = match SplitHostPort a with
       | Ok (host, _) => Dial (host ++ ":5688")%string a
       | Err _ => Fatal "Error parsing address:"
       end.
Proof.
  intros Ha. rewrite main2_succeed, DiscoveryRequest_cons.
  destruct (DiscoveryRequest_set discoveryCallback2 discoveryCallback2_set rest
              (discoveryCallback2 a start)) as [Hf Hd]; [exact Ha|].
  change (firstDevice (discoveryCallback2 a start)) with a in Hf.
  change (deviceFound (discoveryCallback2 a start)) with [true] in Hd.
  rewrite Hd, Hf. repeat split.
  unfold connect, observerAddr, log_Printf. cbn [firstDevice]. rewrite Hf.
  now destruct (SplitHostPort a) as [[host port]|e].
Qed.

Lemma localResponder_not_nonLocal (a : string) :
  localResponder a = true -> negb (nonLocal a) = true.
Proof.
  unfold localResponder, nonLocal.
  destruct (SplitHostPort a) as [[host port]|e]; [|reflexivity].
  intros ->. reflexivity.
Qed.

End WithNet.

End ClientFacts.

(** ** The client: the claims *)

Module ClientClaims.
Import Client ClientSpec ClientFacts.
Local Open Scope list_scope.

(** C5, as amended. In the first program, when some response comes from a
    device (its address parses and its host is none of 127.0.0.1, ::1 and
    localhost), the first such response is the one selected: [firstDevice]
    holds its address and the channel received one signal, and whatever
    responses follow change neither. In the second program the same holds
    of the first response of all, whatever its host. *)
Theorem one_device_selected {N : Net} (responses later : list string)
  (a : string) :
  a <> ""%string ->
  (find nonLocal responses = Some a ->
   firstDevice (DiscoveryRequest discoveryCallback responses start) = a
   /\ deviceFound (DiscoveryRequest discoveryCallback responses start) = [true]
   /\ firstDevice (DiscoveryRequest discoveryCallback later
                     (DiscoveryRequest discoveryCallback responses start)) = a
   /\ deviceFound (DiscoveryRequest discoveryCallback later
                     (DiscoveryRequest discoveryCallback responses start))
      = [true])
  /\ (hd_error responses = Some a ->
      firstDevice (DiscoveryRequest discoveryCallback2 responses start) = a
      /\ deviceFound (DiscoveryRequest discoveryCallback2 responses start)
         = [true]
      /\ firstDevice (DiscoveryRequest discoveryCallback2 later
                        (DiscoveryRequest discoveryCallback2 responses start)) = a
      /\ deviceFound (DiscoveryRequest discoveryCallback2 later
                        (DiscoveryRequest discoveryCallback2 responses start))
         = [true]).
Proof.
  intros Ha. split.
  - intros Hfind.
    destruct (DiscoveryRequest_first_nonLocal a Ha responses start Hfind eq_refl)
      as [Hf Hd].
    destruct (DiscoveryRequest_set discoveryCallback discoveryCallback_set later
                (DiscoveryRequest discoveryCallback responses start))
      as [Hf' Hd']; [congruence|].
    cbn [start deviceFound app] in Hd.
    repeat split; congruence.
  - destruct responses as [|x rest]; [discriminate|].
    cbn [hd_error]. intros [= ->].
    rewrite DiscoveryRequest_cons.
    assert (Hx : firstDevice (discoveryCallback2 a start) = a
                 /\ deviceFound (discoveryCallback2 a start) = [true])
      by (now split).
    destruct Hx as [Hx Hdx].
    destruct (DiscoveryRequest_set discoveryCallback2 discoveryCallback2_set rest
                (discoveryCallback2 a start)) as [Hf Hd]; [congruence|].
    destruct (DiscoveryRequest_set discoveryCallback2 discoveryCallback2_set later
                (DiscoveryRequest discoveryCallback2 rest
                   (discoveryCallback2 a start))) as [Hf' Hd']; [congruence|].
    repeat split; congruence.
Qed.

Lemma one_device_selected_witness :
  firstDevice (DiscoveryRequest (discoveryCallback (N := GoRuntime.goNet))
                 ["127.0.0.1:5683"; "203.0.113.5:5683"; "198.51.100.7:5683"]%string
                 start) = "203.0.113.5:5683"%string
  /\ deviceFound (DiscoveryRequest (discoveryCallback (N := GoRuntime.goNet))
                    ["127.0.0.1:5683"; "203.0.113.5:5683"; "198.51.100.7:5683"]%string
                    start) = [true].
Proof.
  destruct (one_device_selected (N := GoRuntime.goNet)
              ["127.0.0.1:5683"; "203.0.113.5:5683"; "198.51.100.7:5683"]%string
              [] "203.0.113.5:5683"%string) as [H _].
  - discriminate.
  - destruct (H eq_refl) as (Hf & Hd & _). split; assumption.
Defined.

(** C5 as stated fails on the second program: a local response that comes
    first is the one selected, not the first response of a device. *)
Lemma second_program_selects_local_responder :
  find (nonLocal (N := GoRuntime.goNet))
       ["127.0.0.1:5683"; "203.0.113.5:5683"]%string
  = Some "203.0.113.5:5683"%string
  /\ firstDevice (DiscoveryRequest discoveryCallback2
                    ["127.0.0.1:5683"; "203.0.113.5:5683"]%string start)
     = "127.0.0.1:5683"%string.
Proof. split; reflexivity. Qed.

(** C6, as amended. When every response comes from the local host
    (127.0.0.1, ::1 or localhost) and the calls of the library succeed,
    the first program selects no device and ends in the fatal "Timeout"
    of its [select]. The second program has no filter: on such a run
    with a first responder it selects that responder, local as it is,
    and goes on to dial it. *)
Theorem only_local_responders_time_out {N : Net} (responses : list string) :
  forallb localResponder responses = true ->
  (main succeed responses = Fatal "Timeout: No non-local devices found"
   /\ firstDevice (DiscoveryRequest discoveryCallback responses start)
      = ""%string)
  /\ forall a rest,
      responses = a :: rest ->
      a <> ""%string ->
      exists host port,
        SplitHostPort a = Ok (host, port)
        /\ isLocal host = true
        /\ firstDevice (DiscoveryRequest discoveryCallback2 responses start) = a
        /\ main2 succeed responses = Dial (host ++ ":5688")%string a.
Proof.
  intros H. split.
  - destruct (DiscoveryRequest_no_device responses start) as [Hf Hd].
    + apply forallb_forall. intros x Hx.
      apply localResponder_not_nonLocal.
      now apply (proj1 (forallb_forall _ _) H).
    + split; [|exact Hf].
      rewrite main_succeed, Hd. reflexivity.
  - intros a rest -> Ha.
    cbn [forallb] in H. apply andb_true_iff in H as [Hl _].
    unfold localResponder in Hl.
    destruct (SplitHostPort a) as [[host port]|e] eqn:Hp; [|discriminate].
    destruct (main2_first a rest Ha) as (Hf & _ & Hm).
    rewrite Hp in Hm.
    exists host, port. repeat split; assumption.
Qed.

Lemma only_local_responders_time_out_witness :
  (main (N := GoRuntime.goNet) succeed
        ["127.0.0.1:5683"; "[::1]:5683"; "localhost:5683"]%string
   = Fatal "Timeout: No non-local devices found"
   /\ firstDevice (DiscoveryRequest (discoveryCallback (N := GoRuntime.goNet))
                     ["127.0.0.1:5683"; "[::1]:5683"; "localhost:5683"]%string
                     start) = ""%string)
  /\ exists host port,
      SplitHostPort (Net := GoRuntime.goNet) "127.0.0.1:5683" = Ok (host, port)
      /\ isLocal host = true
      /\ firstDevice (DiscoveryRequest discoveryCallback2
                        ["127.0.0.1:5683"; "[::1]:5683"; "localhost:5683"]%string
                        start) = "127.0.0.1:5683"%string
      /\ main2 (N := GoRuntime.goNet) succeed
               ["127.0.0.1:5683"; "[::1]:5683"; "localhost:5683"]%string
         = Dial (host ++ ":5688")%string "127.0.0.1:5683".
Proof.
  destruct (only_local_responders_time_out (N := GoRuntime.goNet)
              ["127.0.0.1:5683"; "[::1]:5683"; "localhost:5683"]%string eq_refl)
    as [H1 H2].
  split; [exact H1|].
  apply (H2 "127.0.0.1:5683"%string ["[::1]:5683"; "localhost:5683"]%string eq_refl).
  discriminate.
Defined.

(** C6 as stated fails on the second program: with a local response alone
    it selects that responder and goes on to dial it. *)
Lemma second_program_takes_local_responder :
  forallb (localResponder (N := GoRuntime.goNet)) ["127.0.0.1:5683"%string] = true
  /\ main2 (N := GoRuntime.goNet) succeed ["127.0.0.1:5683"%string]
     = Dial "127.0.0.1:5688" "127.0.0.1:5683".
Proof. split; reflexivity. Qed.




(** The first program end to end: with a device among the responses it
    goes on to dial the host of the first one at port 5688. *)
Theorem main_dials_first_device {N : Net} (responses : list string)
  (a host port : string) :
  find nonLocal responses = Some a ->
  a <> ""%string ->
  SplitHostPort a = Ok (host, port) ->
  main succeed responses = Dial (host ++ ":5688")%string a.
Proof.
  intros Hfind Ha Hp.
  destruct (DiscoveryRequest_first_nonLocal a Ha responses start Hfind eq_refl)
    as [Hf Hd].
  rewrite main_succeed, Hd. cbn [start deviceFound app].
  unfold connect, observerAddr, log_Printf. cbn [firstDevice].
  now rewrite Hf, Hp.
Qed.

Lemma main_dials_first_device_witness :
  main (N := GoRuntime.goNet) succeed
       ["127.0.0.1:5683"; "203.0.113.5:5683"; "198.51.100.7:5683"]%string
  = Dial "203.0.113.5:5688" "203.0.113.5:5683".
Proof.
  refine (main_dials_first_device (N := GoRuntime.goNet)
            ["127.0.0.1:5683"; "203.0.113.5:5683"; "198.51.100.7:5683"]%string
            "203.0.113.5:5683" "203.0.113.5" "5683" eq_refl _ eq_refl).
  discriminate.
Defined.

(** With the reference parser: for a device address in the plain form
    host:port, without brackets, the observer address parses back to the
    same host and the port 5688. *)
Theorem observerAddr_parses_back (device host port : string) :
  GoRuntime.SplitHostPort device = Ok (host, port) ->
  GoRuntime.byteAt device 0 <> "["%char ->
  exists a,
    observerAddr (N := GoRuntime.goNet) device = Ok a
    /\ GoRuntime.SplitHostPort a = Ok (host, "5688"%string).
Proof.
  intros Hp Hb. exists (host ++ ":5688")%string. split.
  - unfold observerAddr. cbn [SplitHostPort GoRuntime.goNet]. now rewrite Hp.
  - destruct (GoNetFacts.SplitHostPort_plain_host device host port Hp Hb)
      as (Hc & Hl & Hr).
    now apply GoNetFacts.SplitHostPort_host_5688.
Qed.

Lemma observerAddr_parses_back_witness :
  exists a,
    observerAddr (N := GoRuntime.goNet) "203.0.113.5:5683" = Ok a
    /\ GoRuntime.SplitHostPort a = Ok ("203.0.113.5"%string, "5688"%string).
Proof.
  refine (observerAddr_parses_back "203.0.113.5:5683" "203.0.113.5" "5683"
            eq_refl _).
  discriminate.
Defined.

(** A bracketed IPv6 literal loses its brackets on the way: the observer
    address is still the host followed by ":5688", but it no longer
    parses as host and port. *)
Example observerAddr_ipv6 :
  observerAddr (N := GoRuntime.goNet) "[2001:db8::1]:5683"
  = Ok "2001:db8::1:5688"%string
  /\ GoRuntime.SplitHostPort "2001:db8::1:5688"
     = Err "too many colons in address".
Proof. split; reflexivity. Qed.

End ClientClaims.

(** ** The server: further properties *)

Module ServerMore.
Import Server ServerSpec ServerFacts ServerRun Samples.
Local Open Scope go_scope.
Local Open Scope list_scope.

Section WithRuntime.
Context {R : ServerRuntime}.

Lemma exec_bind {A B : Type} (c : M A) (k : M B) (s : World) :
  exec (c ;; k) s = exec k (exec c s).
Proof. unfold exec, bind. now destruct (c s). Qed.

(** A run of the loop whose writes all succeed. *)
Lemma transmitLoop_all_ok (fuel : nat) (cc : mux.Conn) (token : list Byte.byte)
  (subded : Z) :
  forall obs s,
    (forall j, (j < fuel)%nat ->
               writeResult (List.length (writes s) + j) = None) ->
    fst (transmitLoop fuel cc token subded obs s) = Running (counterAt obs fuel)
    /\ List.length (writes (exec (transmitLoop fuel cc token subded obs) s))
       = (List.length (writes s) + fuel)%nat
    /\ slept (exec (transmitLoop fuel cc token subded obs) s)
       = slept s + Z.of_nat fuel * Second
    /\ clockReads (exec (transmitLoop fuel cc token subded obs) s)
       = (clockReads s + fuel)%nat
    /\ logs (exec (transmitLoop fuel cc token subded obs) s) = logs s
    /\ goroutines (exec (transmitLoop fuel cc token subded obs) s) = goroutines s.
Proof.
  induction fuel as [|fuel IH]; intros obs s Hok.
  - cbn. repeat split; lia.
  - unfold exec in *. rewrite transmitLoop_step. cbv zeta.
    pose proof (Hok O ltac:(lia)) as H0. rewrite Nat.add_0_r in H0. rewrite H0.
    match goal with
    | |- context [transmitLoop fuel cc token subded ?o ?w] =>
        destruct (IH o w) as (Hr & Hl & Hs & Hc & Hg & Hp)
    end.
    + intros j Hj. cbn [writes]. rewrite length_app. cbn [List.length].
      replace (List.length (writes s) + 1 + j)%nat
        with (List.length (writes s) + S j)%nat by lia.
      apply Hok. lia.
    + cbn [writes slept clockReads logs goroutines] in *.
      rewrite length_app in Hl. cbn [List.length] in Hl.
      rewrite counterAt_succ.
      repeat split; try assumption; lia.
Qed.

(** A run of the loop that returned did so on a failed write, its last. *)
Lemma transmitLoop_returned (fuel : nat) (cc : mux.Conn)
  (token : list Byte.byte) (subded : Z) :
  forall obs s,
    fst (transmitLoop fuel cc token subded obs s) = Returned ->
    exists k e ev,
      nth_error (writes (exec (transmitLoop fuel cc token subded obs) s))
                (List.length (writes s) + k) = Some ev
      /\ wErr ev = Some e
      /\ List.length (writes (exec (transmitLoop fuel cc token subded obs) s))
         = (List.length (writes s) + S k)%nat
      /\ logs (exec (transmitLoop fuel cc token subded obs) s)
         = logs s ++ [TransmitterStopping e].
Proof.
  induction fuel as [|fuel IH]; intros obs s H.
  - discriminate.
  - unfold exec in *. rewrite transmitLoop_step in *. cbv zeta in *.
    destruct (writeResult (List.length (writes s))) as [e|] eqn:Hw.
    + exists O, e. eexists. cbn [snd writes logs].
      rewrite Nat.add_0_r, nth_error_app2 by lia. rewrite Nat.sub_diag.
      rewrite length_app. cbn [List.length nth_error].
      repeat split; lia.
    + destruct (IH _ _ H) as (k & e & ev & Hn & He & Hl & Hg).
      cbn [writes logs] in *. rewrite length_app in *. cbn [List.length] in *.
      exists (S k), e, ev.
      replace (List.length (writes s) + S k)%nat
        with (List.length (writes s) + 1 + k)%nat by lia.
      repeat split; try assumption; lia.
Qed.

End WithRuntime.

(** As long as the writes succeed the transmitter goes on: after [fuel]
    iterations it is still running with the counter at 2 + fuel, has
    written [fuel] notifications, slept [fuel] seconds, read the clock
    once per notification and once at the start, and logged nothing. *)
Theorem transmitter_runs_while_writes_succeed {R : ServerRuntime}
  (fuel : nat) (cc : mux.Conn) (token : list Byte.byte) (s : World) :
  (forall j, (j < fuel)%nat -> writeResult (List.length (writes s) + j) = None) ->
  2 + Z.of_nat fuel < 2 ^ 63 ->
  fst (periodicTransmitter fuel cc token s) = Running (2 + Z.of_nat fuel)
  /\ List.length (writes (exec (periodicTransmitter fuel cc token) s))
     = (List.length (writes s) + fuel)%nat
  /\ slept (exec (periodicTransmitter fuel cc token) s)
     = slept s + Z.of_nat fuel * Second
  /\ clockReads (exec (periodicTransmitter fuel cc token) s)
     = (clockReads s + 1 + fuel)%nat
  /\ logs (exec (periodicTransmitter fuel cc token) s) = logs s.
Proof.
  intros Hok Hlt. unfold exec. rewrite periodicTransmitter_run.
  destruct (transmitLoop_all_ok fuel cc token (clockAt (clockReads s)) 2
              (mkWorld (S (clockReads s)) (slept s) (writes s) (goroutines s)
                       (response s) (logs s)) Hok)
    as (Hr & Hl & Hs & Hc & Hg & _).
  unfold exec in *. cbn [writes slept clockReads logs] in *.
  rewrite counterAt_small in Hr by lia.
  repeat split; try assumption. lia.
Qed.

Lemma transmitter_runs_while_writes_succeed_witness :
  fst (periodicTransmitter (R := GoRuntime.failingAt 0 1000000000 5)
         4 peer tok idle) = Running 6
  /\ List.length (writes (exec (periodicTransmitter
                                  (R := GoRuntime.failingAt 0 1000000000 5)
                                  4 peer tok) idle)) = 4%nat
  /\ slept (exec (periodicTransmitter (R := GoRuntime.failingAt 0 1000000000 5)
                    4 peer tok) idle) = 4000000000
  /\ clockReads (exec (periodicTransmitter
                         (R := GoRuntime.failingAt 0 1000000000 5)
                         4 peer tok) idle) = 5%nat
  /\ logs (exec (periodicTransmitter (R := GoRuntime.failingAt 0 1000000000 5)
                   4 peer tok) idle) = [].
Proof.
  refine (transmitter_runs_while_writes_succeed
            (R := GoRuntime.failingAt 0 1000000000 5) 4 peer tok idle _ _).
  - intros [|[|[|[|j]]]] Hj; try reflexivity. lia.
  - reflexivity.
Defined.

(** The transmitter returns only on a failed write: when it has returned,
    its last write is one that failed, and the one line it logged carries
    the error of that write. *)
Theorem transmitter_returns_only_on_write_error {R : ServerRuntime}
  (fuel : nat) (cc : mux.Conn) (token : list Byte.byte) (s : World) :
  fst (periodicTransmitter fuel cc token s) = Returned ->
  exists k e ev,
    nth_error (writes (exec (periodicTransmitter fuel cc token) s))
              (List.length (writes s) + k) = Some ev
    /\ wErr ev = Some e
    /\ List.length (writes (exec (periodicTransmitter fuel cc token) s))
       = (List.length (writes s) + S k)%nat
    /\ logs (exec (periodicTransmitter fuel cc token) s)
       = logs s ++ [TransmitterStopping e].
Proof.
  unfold exec. rewrite periodicTransmitter_run. intros H.
  exact (transmitLoop_returned fuel cc token (clockAt (clockReads s)) 2
           (mkWorld (S (clockReads s)) (slept s) (writes s) (goroutines s)
                    (response s) (logs s)) H).
Qed.

Lemma transmitter_returns_only_on_write_error_witness :
  exists k e ev,
    nth_error (writes (exec (periodicTransmitter
                               (R := GoRuntime.failingAt 0 1000000000 1)
                               5 peer tok) idle)) k = Some ev
    /\ wErr ev = Some e
    /\ List.length (writes (exec (periodicTransmitter
                                    (R := GoRuntime.failingAt 0 1000000000 1)
                                    5 peer tok) idle)) = S k
    /\ logs (exec (periodicTransmitter (R := GoRuntime.failingAt 0 1000000000 1)
                     5 peer tok) idle) = [TransmitterStopping e].
Proof.
  exact (transmitter_returns_only_on_write_error
           (R := GoRuntime.failingAt 0 1000000000 1) 5 peer tok idle eq_refl).
Defined.

(** Every notification of a transmitter goes to the connection it was
    started for, with the token it was started for and the code Content;
    while the counter stays within [int64], the [i]-th one carries the
    observe value (2 + i) mod 2^32. *)
Theorem push_bound_to_subscription {R : ServerRuntime}
  (fuel : nat) (cc : mux.Conn) (token : list Byte.byte) (s : World)
  (i : nat) (ev : WriteEvent) :
  nth_error (writes (exec (periodicTransmitter fuel cc token) s))
            (List.length (writes s) + i) = Some ev ->
  wConn ev = cc
  /\ pool.Token (wMsg ev) = token
  /\ pool.Code (wMsg ev) = codes.Content
  /\ (2 + Z.of_nat i < 2 ^ 63 ->
      pool.Observe (wMsg ev) = Some ((2 + Z.of_nat i) mod 2 ^ 32)).
Proof.
  intros H. apply periodicTransmitter_nth in H. subst ev.
  cbn [wConn wMsg]. repeat split.
  intros Hlt. now rewrite notification_observe.
Qed.

Lemma push_bound_to_subscription_witness :
  exists ev,
    nth_error (writes (exec (periodicTransmitter (R := GoRuntime.steady 0 1000000000)
                               3 peer tok) idle)) 2 = Some ev
    /\ wConn ev = peer
    /\ pool.Token (wMsg ev) = tok
    /\ pool.Code (wMsg ev) = codes.Content
    /\ pool.Observe (wMsg ev) = Some 4.
Proof.
  eexists. split; [vm_compute; reflexivity|].
  match goal with
  | |- wConn ?e = _ /\ _ =>
      pose proof (push_bound_to_subscription (R := GoRuntime.steady 0 1000000000)
                    3 peer tok idle 2 e) as H
  end.
  destruct H as (Hc & Ht & Hk & Ho); [vm_compute; reflexivity|].
  exact (conj Hc (conj Ht (conj Hk (Ho eq_refl)))).
Defined.

(** From the request to the notifications: a request that starts an
    observation gets no response from the handler itself, which writes
    nothing to the connection and sets nothing in the response writer;
    the goroutine the handler starts writes, on the connection of the
    request and with its token, notifications whose bodies count the time
    from the start of that goroutine and whose observe values are 2, 3,
    ... *)
Theorem observe_start_then_pushes {R : ServerRuntime}
  (w : mux.ResponseWriter) (r : mux.Message) (s : World) :
  observeStart r ->
  writes (exec (handleObserve w r) s) = writes s
  /\ response (exec (handleObserve w r) s) = response s
  /\ exists t,
      nth_error (goroutines (exec (handleObserve w r) s))
                (List.length (goroutines s)) = Some t
      /\ forall fuel i ev,
          nth_error (writes (exec (periodicTransmitter fuel (fst t) (snd t))
                               (exec (handleObserve w r) s)))
                    (List.length (writes s) + i) = Some ev ->
          wConn ev = mux.Conn_ w
          /\ pool.Token (wMsg ev) = mux.Token r
          /\ pool.Body (wMsg ev)
             = ("Been running for "
                ++ formatDuration (clockAt (S (clockReads s) + i)
                                   - clockAt (clockReads s)))%string
          /\ (2 + Z.of_nat i < 2 ^ 32 ->
              pool.Observe (wMsg ev) = Some (2 + Z.of_nat i)).
Proof.
  intros H. destruct (handleObserve_start w r s H) as (Hg & Hw & Hr & Hc).
  cbv zeta in *. split; [exact Hw|]. split; [exact Hr|].
  exists (mux.Conn_ w, mux.Token r). split.
  - rewrite Hg, nth_error_app2 by lia. now rewrite Nat.sub_diag.
  - intros fuel i ev Hev. cbn [fst snd] in Hev.
    rewrite <- Hw in Hev. apply periodicTransmitter_nth in Hev.
    rewrite Hc in Hev. subst ev. cbn [wConn wMsg].
    repeat split.
    intros Hlt. rewrite notification_observe by lia.
    now rewrite GoIntFacts.uint32_small by lia.
Qed.

Lemma observe_start_then_pushes_witness :
  writes (exec (handleObserve (R := GoRuntime.steady 0 1000000000) writer
                  (observeGet message.Confirmable 0)) idle) = []
  /\ response (exec (handleObserve (R := GoRuntime.steady 0 1000000000) writer
                       (observeGet message.Confirmable 0)) idle) = None
  /\ map (fun ev => (pool.Body (wMsg ev), pool.Observe (wMsg ev)))
         (writes (exec (periodicTransmitter (R := GoRuntime.steady 0 1000000000)
                          2 peer tok)
                    (exec (handleObserve (R := GoRuntime.steady 0 1000000000)
                             writer (observeGet message.Confirmable 0)) idle)))
     = [("Been running for 1s"%string, Some 2);
        ("Been running for 2s"%string, Some 3)].
Proof.
  destruct (observe_start_then_pushes (R := GoRuntime.steady 0 1000000000)
              writer (observeGet message.Confirmable 0) idle)
    as (Hw & Hr & _).
  - repeat split.
  - split; [exact Hw|]. split; [exact Hr|]. vm_compute. reflexivity.
Defined.

(** A write error in the synchronous branch is swallowed: the handler
    made its one write, logs the error as its last line and returns; it
    neither retries nor starts a transmitter. *)
Theorem sync_write_error_is_logged {R : ServerRuntime}
  (w : mux.ResponseWriter) (r : mux.Message) (s : World) (e : error) :
  mux.Code r = codes.GET ->
  isObserveStart r = false ->
  writeResult (List.length (writes s)) = Some e ->
  (exists ev, writes (exec (handleObserve w r) s) = writes s ++ [ev]
              /\ wErr ev = Some e)
  /\ (exists l, logs (exec (handleObserve w r) s)
                = logs s ++ l ++ [TransmitterError e])
  /\ goroutines (exec (handleObserve w r) s) = goroutines s.
Proof.
  destruct r as [code ty tk [[path perr] [obs oerr]]].
  unfold isObserveStart. cbn. intros -> Hno Hw.
  unfold exec, handleObserve, getPath, bind. cbn.
  cbn in Hno. rewrite Hno.
  destruct perr; cbn; rewrite Hw; cbn.
  - split; [eexists; split; reflexivity|]. split; [|reflexivity].
    rewrite <- !app_assoc. eexists (cons _ (cons _ nil)). reflexivity.
  - split; [eexists; split; reflexivity|]. split; [|reflexivity].
    rewrite <- !app_assoc. eexists (cons _ nil). reflexivity.
Qed.

Lemma sync_write_error_is_logged_witness :
  (exists ev, writes (exec (handleObserve (R := GoRuntime.failingAt 0 100 0)
                              writer plainGet) idle) = [ev]
              /\ wErr ev = Some "write: connection refused"%string)
  /\ (exists l, logs (exec (handleObserve (R := GoRuntime.failingAt 0 100 0)
                              writer plainGet) idle)
                = l ++ [TransmitterError "write: connection refused"])
  /\ goroutines (exec (handleObserve (R := GoRuntime.failingAt 0 100 0)
                         writer plainGet) idle) = [].
Proof.
  exact (sync_write_error_is_logged (R := GoRuntime.failingAt 0 100 0)
           writer plainGet idle "write: connection refused"%string
           eq_refl eq_refl eq_refl).
Defined.

(** Whether the path of the request can be read changes the log only:
    what [handleObserve] writes, starts and reads of the clock is the same
    for any reading of the path option. *)
Theorem handleObserve_ignores_path {R : ServerRuntime}
  (w : mux.ResponseWriter) (r : mux.Message) (p : string * option error)
  (s : World) :
  writes (exec (handleObserve w (withPath p r)) s)
  = writes (exec (handleObserve w r) s)
  /\ goroutines (exec (handleObserve w (withPath p r)) s)
     = goroutines (exec (handleObserve w r) s)
  /\ response (exec (handleObserve w (withPath p r)) s)
     = response (exec (handleObserve w r) s)
  /\ clockReads (exec (handleObserve w (withPath p r)) s)
     = clockReads (exec (handleObserve w r) s).
Proof.
  destruct r as [code ty tk [[path perr] [obs oerr]]], p as [path' perr'].
  unfold withPath, exec, handleObserve, getPath, bind. cbn.
  destruct perr, perr'; cbn;
    destruct ((code =? codes.GET) && isNil oerr && (obs =? 0)); cbn;
    try (repeat split; reflexivity);
    destruct (code =? codes.GET); cbn;
    try (repeat split; reflexivity);
    destruct (writeResult (List.length (writes s))); repeat split; reflexivity.
Qed.

Section Sequences.
Context {R : ServerRuntime}.

Lemma isObserveStart_iff (r : mux.Message) :
  isObserveStart r = true <-> observeStart r.
Proof.
  unfold isObserveStart, observeStart.
  destruct (message.Observe (mux.Options r)) as [obs [e|]]; cbn.
  - rewrite andb_false_r. cbn. split; [discriminate | intros (_ & H & _); discriminate].
  - rewrite andb_true_r, andb_true_iff, !Z.eqb_eq. tauto.
Qed.

(** One request, by the arm of the switch it takes. *)
Lemma handleObserve_counts (w : mux.ResponseWriter) (r : mux.Message)
  (s : World) :
  goroutines (exec (handleObserve w r) s)
  = goroutines s ++ (if isObserveStart r then [task (w, r)] else [])
  /\ List.length (writes (exec (handleObserve w r) s))
     = (List.length (writes s) + (if isSyncGet r then 1 else 0))%nat.
Proof.
  unfold isSyncGet.
  destruct (observeStart_dec r) as [H | [[Hc Hn] | Hc]].
  - destruct (handleObserve_start w r s H) as (Hg & Hw & _).
    cbv zeta in *. rewrite (proj2 (isObserveStart_iff r) H).
    rewrite andb_false_r, Hg, Hw. split; [reflexivity | lia].
  - destruct (handleObserve_sync w r s Hc Hn) as (Hw & Hg & _).
    cbv zeta in *.
    assert (Hs : isObserveStart r = false).
    { unfold isObserveStart. rewrite <- andb_assoc, Hn. apply andb_false_r. }
    rewrite Hs, Hg, Hw, length_app, app_nil_r.
    apply Z.eqb_eq in Hc. rewrite Hc. cbn. split; [reflexivity | lia].
  - destruct (handleObserve_other w r s Hc) as (Hw & Hg & _).
    cbv zeta in *. apply Z.eqb_neq in Hc.
    unfold isObserveStart. rewrite Hc. cbn.
    rewrite Hg, Hw, app_nil_r. split; [reflexivity | lia].
Qed.

End Sequences.

(** Over any sequence of requests the handler starts one transmitter per
    request that starts an observation, in their order, a repeated one
    included, and never takes one away (a GET with another observe value,
    1 say, stops nothing); it writes once per other GET and not at all
    otherwise. *)
Theorem handleAll_goroutines_and_writes {R : ServerRuntime}
  (reqs : list (mux.ResponseWriter * mux.Message)) :
  forall s,
    goroutines (exec (handleAll reqs) s)
    = goroutines s
      ++ map task (filter (fun wr => isObserveStart (snd wr)) reqs)
    /\ List.length (writes (exec (handleAll reqs) s))
       = (List.length (writes s)
          + List.length (filter (fun wr => isSyncGet (snd wr)) reqs))%nat.
Proof.
  induction reqs as [|[w r] rest IH]; intros s.
  - cbn. rewrite app_nil_r. split; [reflexivity | lia].
  - cbn [handleAll]. rewrite exec_bind.
    destruct (IH (exec (handleObserve w r) s)) as [Hg Hw].
    destruct (handleObserve_counts w r s) as [Hg1 Hw1].
    rewrite Hg, Hw, Hg1, Hw1. cbn [filter snd].
    destruct (isObserveStart r), (isSyncGet r); cbn [map List.length app];
      rewrite <- ?app_assoc, ?app_nil_r; split; try reflexivity; lia.
Qed.

(** In [main], a failure to join the multicast group on an interface is
    logged and goes no further: when the listener, the list of
    interfaces, the address and the loopback setting are fine, the server
    gets to serve whatever [JoinGroup] returns, having tried every
    interface and logged one line per failure, in their order. *)
Theorem main_tolerates_join_failures {Iface : Type}
  (net : ServerMain.Network Iface) (ifaces : list Iface) :
  ServerMain.NewListenUDP net = None ->
  ServerMain.Interfaces net = (ifaces, None) ->
  ServerMain.ResolveUDPAddr net = None ->
  ServerMain.SetMulticastLoopback net = None ->
  ServerMain.main net
  = ServerMain.Serving
      (filter (fun i => isNil (ServerMain.JoinGroup net i)) ifaces)
      (flat_map (fun i => match ServerMain.JoinGroup net i with
                          | Some e => [ServerMain.CannotJoinGroup i e]
                          | None => []
                          end) ifaces
       ++ [ServerMain.StartingMulticastServer ServerMain.multicastAddr]).
Proof.
  intros Hl Hi Hr Hm. unfold ServerMain.main. rewrite Hl, Hi, Hr.
  assert (Hj : forall l acc,
             fold_left
               (fun (acc : list Iface * list (ServerMain.LogEntry Iface)) iface =>
                  match ServerMain.JoinGroup net iface with
                  | Some e => (fst acc, snd acc ++ [ServerMain.CannotJoinGroup iface e])
                  | None => (fst acc ++ [iface], snd acc)
                  end) l acc
             = (fst acc ++ filter (fun i => isNil (ServerMain.JoinGroup net i)) l,
                snd acc ++ flat_map (fun i => match ServerMain.JoinGroup net i with
                                              | Some e => [ServerMain.CannotJoinGroup i e]
                                              | None => []
                                              end) l)).
  { induction l as [|i l IH]; intros [j g]; cbn [fold_left filter flat_map fst snd].
    - now rewrite !app_nil_r.
    - rewrite IH. destruct (ServerMain.JoinGroup net i); cbn [isNil fst snd app];
        now rewrite <- ?app_assoc, ?app_nil_r. }
  unfold ServerMain.joinGroups. rewrite Hj. cbn [fst snd app]. now rewrite Hm.
Qed.

Lemma main_tolerates_join_failures_witness :
  ServerMain.main
    (ServerMain.mkNetwork None (["lo"; "eth0"; "wlan0"]%string, None) None
       (fun i => if String.eqb i "eth0" then None
                 else Some "no such device"%string) None)
  = ServerMain.Serving ["eth0"%string]
      [ServerMain.CannotJoinGroup "lo"%string "no such device"%string;
       ServerMain.CannotJoinGroup "wlan0"%string "no such device"%string;
       ServerMain.StartingMulticastServer "224.0.1.187:5683"%string].
Proof.
  exact (main_tolerates_join_failures
           (ServerMain.mkNetwork None (["lo"; "eth0"; "wlan0"]%string, None) None
              (fun i => if String.eqb i "eth0" then None
                        else Some "no such device"%string) None)
           ["lo"; "eth0"; "wlan0"]%string eq_refl eq_refl eq_refl eq_refl).
Defined.

End ServerMore.

(** ** The client: further properties *)

Module ClientMore.
Import Client ClientSpec ClientFacts ClientRun.
Local Open Scope list_scope.

Section WithNet.
Context {N : Net}.

(** What one run of the first callback can do to the two shared
    variables: nothing, or select the address it was run for. *)
Lemma discoveryCallback_cases (addr : string) (st : State) :
  (firstDevice (discoveryCallback addr st) = firstDevice st
   /\ deviceFound (discoveryCallback addr st) = deviceFound st)
  \/ (firstDevice (discoveryCallback addr st) = addr
      /\ nonLocal addr = true
      /\ deviceFound (discoveryCallback addr st) = deviceFound st ++ [true]).
Proof.
  destruct (nonLocal addr) eqn:Hn.
  - destruct (String.eqb_spec (firstDevice st) "") as [He|He].
    + right. destruct (discoveryCallback_takes addr st Hn He). now repeat split.
    + left. now apply discoveryCallback_set.
  - left. now apply discoveryCallback_skips.
Qed.

Lemma DiscoveryRequest_cases (responses : list string) :
  forall st,
    (firstDevice (DiscoveryRequest discoveryCallback responses st) = firstDevice st
     /\ deviceFound (DiscoveryRequest discoveryCallback responses st)
        = deviceFound st)
    \/ (In (firstDevice (DiscoveryRequest discoveryCallback responses st)) responses
        /\ nonLocal (firstDevice (DiscoveryRequest discoveryCallback responses st))
           = true
        /\ deviceFound (DiscoveryRequest discoveryCallback responses st) <> []).
Proof.
  induction responses as [|a rest IH]; intros st.
  - left. now split.
  - rewrite DiscoveryRequest_cons.
    destruct (IH (discoveryCallback a st)) as [[Hf Hd] | (Hi & Hn & Hd)].
    + destruct (discoveryCallback_cases a st) as [[Hf' Hd'] | (Hf' & Hn' & Hd')].
      * left. split; congruence.
      * right. rewrite Hf, Hd, Hf', Hd'. repeat split.
        -- now left.
        -- exact Hn'.
        -- now destruct (deviceFound st).
    + right. repeat split; [now right | exact Hn | exact Hd].
Qed.

(** The channel holds a signal as soon as a device has responded. *)
Lemma DiscoveryRequest_signals (responses : list string) :
  forall st,
    firstDevice st = ""%string \/ deviceFound st <> [] ->
    (firstDevice (DiscoveryRequest discoveryCallback responses st) = ""%string
     \/ deviceFound (DiscoveryRequest discoveryCallback responses st) <> [])
    /\ (deviceFound st <> [] ->
        deviceFound (DiscoveryRequest discoveryCallback responses st) <> [])
    /\ (existsb nonLocal responses = true ->
        deviceFound (DiscoveryRequest discoveryCallback responses st) <> []).
Proof.
  induction responses as [|a rest IH]; intros st Hinv.
  - cbn. repeat split; [exact Hinv | auto | discriminate].
  - rewrite DiscoveryRequest_cons. cbn [existsb].
    assert (Hstep : (firstDevice (discoveryCallback a st) = ""%string
                     \/ deviceFound (discoveryCallback a st) <> [])
                    /\ (deviceFound st <> [] ->
                        deviceFound (discoveryCallback a st) <> [])
                    /\ (nonLocal a = true ->
                        deviceFound (discoveryCallback a st) <> [])).
    { destruct (discoveryCallback_cases a st) as [[Hf Hd] | (Hf & Hn & Hd)].
      - rewrite Hf, Hd. repeat split; [exact Hinv | auto |].
        intros Hn. destruct Hinv as [He|Hne]; [|exact Hne].
        destruct (discoveryCallback_takes a st Hn He) as [_ Hd'].
        rewrite Hd' in Hd. now destruct (deviceFound st).
      - rewrite Hd.
        repeat split; try right; intros; now destruct (deviceFound st). }
    destruct Hstep as (Hi & Hm & Hq).
    destruct (IH (discoveryCallback a st) Hi) as (Hi' & Hm' & Hq').
    repeat split; [exact Hi' | auto |].
    intros He. apply orb_true_iff in He as [He|He]; auto.
Qed.

Lemma find_nonLocal_None (responses : list string) :
  find nonLocal responses = None <-> existsb nonLocal responses = false.
Proof.
  induction responses as [|a rest IH]; cbn; [tauto|].
  destruct (nonLocal a); cbn; [split; discriminate | exact IH].
Qed.

(** [connect] looks at [firstDevice] only. *)
Lemma connect_firstDevice (st st' : State) :
  firstDevice st = firstDevice st' -> connect st = connect st'.
Proof. unfold connect. now intros ->. Qed.

(** The second callback never takes a signal back. *)
Lemma DiscoveryRequest2_signals (responses : list string) :
  forall st,
    deviceFound st <> [] ->
    deviceFound (DiscoveryRequest discoveryCallback2 responses st) <> [].
Proof.
  induction responses as [|a rest IH]; intros st H; [exact H|].
  rewrite DiscoveryRequest_cons. apply IH.
  unfold discoveryCallback2, selectFirst, log_Printf, park.
  destruct (String.eqb (firstDevice st) ""); cbn; [|exact H].
  now destruct (deviceFound st).
Qed.

(** The two callbacks do the same to states that agree on the two shared
    variables. *)
Lemma discoveryCallback_agree (addr : string) (st1 st2 : State) :
  firstDevice st1 = firstDevice st2 ->
  deviceFound st1 = deviceFound st2 ->
  firstDevice (discoveryCallback addr st1) = firstDevice (discoveryCallback addr st2)
  /\ deviceFound (discoveryCallback addr st1)
     = deviceFound (discoveryCallback addr st2).
Proof.
  intros Hf Hd. unfold discoveryCallback.
  destruct (SplitHostPort addr) as [[host port]|e]; [|now split].
  destruct (isLocal host); [now split|].
  unfold selectFirst, log_Printf. cbn. rewrite Hf, Hd.
  destruct (String.eqb (firstDevice st2) ""); now split.
Qed.

Lemma DiscoveryRequest_filter (responses : list string) :
  forall st1 st2,
    firstDevice st1 = firstDevice st2 ->
    deviceFound st1 = deviceFound st2 ->
    firstDevice (DiscoveryRequest discoveryCallback responses st1)
    = firstDevice (DiscoveryRequest discoveryCallback
                     (filter nonLocal responses) st2)
    /\ deviceFound (DiscoveryRequest discoveryCallback responses st1)
       = deviceFound (DiscoveryRequest discoveryCallback
                        (filter nonLocal responses) st2).
Proof.
  induction responses as [|a rest IH]; intros st1 st2 Hf Hd.
  - now split.
  - rewrite DiscoveryRequest_cons. cbn [filter].
    destruct (nonLocal a) eqn:Hn.
    + rewrite DiscoveryRequest_cons.
      destruct (discoveryCallback_agree a st1 st2 Hf Hd) as [Hf' Hd'].
      now apply IH.
    + destruct (discoveryCallback_skips a st1 Hn) as [Hf' Hd'].
      apply IH; congruence.
Qed.

(** On the response of a device the two callbacks do the same to the two
    shared variables. *)
Lemma discoveryCallback_agree_2 (addr : string) (st1 st2 : State) :
  nonLocal addr = true ->
  firstDevice st1 = firstDevice st2 ->
  deviceFound st1 = deviceFound st2 ->
  firstDevice (discoveryCallback addr st1) = firstDevice (discoveryCallback2 addr st2)
  /\ deviceFound (discoveryCallback addr st1)
     = deviceFound (discoveryCallback2 addr st2).
Proof.
  unfold nonLocal, discoveryCallback, discoveryCallback2.
  destruct (SplitHostPort addr) as [[host port]|e]; [|discriminate].
  destruct (isLocal host); [discriminate|]. intros _ Hf Hd.
  unfold selectFirst, log_Printf, park. cbn. rewrite Hf, Hd.
  destruct (String.eqb (firstDevice st2) ""); now split.
Qed.

Lemma DiscoveryRequest_agree_2 (responses : list string) :
  forallb nonLocal responses = true ->
  forall st1 st2,
    firstDevice st1 = firstDevice st2 ->
    deviceFound st1 = deviceFound st2 ->
    firstDevice (DiscoveryRequest discoveryCallback responses st1)
    = firstDevice (DiscoveryRequest discoveryCallback2 responses st2)
    /\ deviceFound (DiscoveryRequest discoveryCallback responses st1)
       = deviceFound (DiscoveryRequest discoveryCallback2 responses st2).
Proof.
  induction responses as [|a rest IH]; intros H st1 st2 Hf Hd.
  - now split.
  - cbn [forallb] in H. apply andb_true_iff in H as [Ha Hr].
    rewrite !DiscoveryRequest_cons.
    destruct (discoveryCallback_agree_2 a st1 st2 Ha Hf Hd) as [Hf' Hd'].
    now apply IH.
Qed.

Lemma discoveryCallback_logs (addr : string) (st : State) :
  map entryAddr (logs (discoveryCallback addr st))
  = map entryAddr (logs st) ++ [addr].
Proof.
  unfold discoveryCallback.
  destruct (SplitHostPort addr) as [[host port]|e]; cbn;
    [destruct (isLocal host); cbn|]; rewrite ?map_app; try reflexivity.
  unfold selectFirst. cbn.
  destruct (String.eqb (firstDevice st) ""); cbn; now rewrite map_app.
Qed.

Lemma DiscoveryRequest_logs (cb : string -> State -> State) :
  (forall addr st, map entryAddr (logs (cb addr st))
                   = map entryAddr (logs st) ++ [addr]) ->
  forall responses st,
    map entryAddr (logs (DiscoveryRequest cb responses st))
    = map entryAddr (logs st) ++ responses.
Proof.
  intros Hcb. induction responses as [|a rest IH]; intros st.
  - cbn. now rewrite app_nil_r.
  - rewrite DiscoveryRequest_cons, IH, Hcb, <- app_assoc. reflexivity.
Qed.

End WithNet.

(** However its library calls and the responses turn out, the first
    program ends in one of six ways: the fatal error of the listener, of
    the token, of the request or of the discovery, the fatal timeout, or
    dialling port 5688 of the host of a response it received, a host that
    is not local. It never waits for ever, never fails on the address it
    selected, and never dials a local host. *)
Theorem main_outcomes {N : Net} (lib : Calls) (responses : list string) :
  (exists e, listenErr lib = Some e /\ main lib responses = Fatal e)
  \/ main lib responses = Fatal "cannot get token:"
  \/ main lib responses = Fatal "cannot create discover request:"
  \/ main lib responses = Fatal "discovery error:"
  \/ main lib responses = Fatal "Timeout: No non-local devices found"
  \/ exists device host port,
      In device responses
      /\ SplitHostPort device = Ok (host, port)
      /\ isLocal host = false
      /\ main lib responses = Dial (host ++ ":5688")%string device.
Proof.
  unfold main.
  destruct (listenErr lib) as [e|]; [left; now exists e|]. right.
  destruct (tokenErr lib); [now left|]. right.
  destruct (setupGetErr lib); [now left|]. right.
  destruct (discoveryErr lib); [now left|]. right.
  destruct (DiscoveryRequest_cases responses start) as [[_ Hd] | (Hi & Hn & Hd)].
  - left. cbv zeta. rewrite Hd. reflexivity.
  - right. cbv zeta.
    set (st := DiscoveryRequest discoveryCallback responses start) in *.
    unfold nonLocal in Hn.
    destruct (SplitHostPort (firstDevice st)) as [[host port]|e] eqn:Hp;
      [|discriminate].
    exists (firstDevice st), host, port.
    split; [exact Hi|]. split; [exact Hp|].
    split; [now apply negb_true_iff|].
    destruct (deviceFound st) as [|b l]; [contradiction|].
    unfold connect, observerAddr, log_Printf. cbn [firstDevice].
    now rewrite Hp.
Qed.

(** When its library calls succeed, the first program ends in the timeout
    exactly when no response comes from a device. *)
Theorem main_times_out_iff_no_device {N : Net} (responses : list string) :
  main succeed responses = Fatal "Timeout: No non-local devices found"
  <-> find nonLocal responses = None.
Proof.
  rewrite main_succeed. split.
  - intros Hm. apply find_nonLocal_None.
    destruct (existsb nonLocal responses) eqn:He; [|reflexivity].
    destruct (DiscoveryRequest_signals responses start (or_introl eq_refl))
      as (_ & _ & Hs).
    specialize (Hs He).
    destruct (deviceFound (DiscoveryRequest discoveryCallback responses start))
      as [|b l]; [contradiction|].
    unfold connect in Hm.
    destruct (observerAddr _); discriminate.
  - intros Hf. apply find_nonLocal_None in Hf.
    destruct (DiscoveryRequest_no_device responses start) as [_ Hd].
    + apply forallb_forall. intros x Hx. apply negb_true_iff.
      destruct (nonLocal x) eqn:Hn; [|reflexivity].
      assert (existsb nonLocal responses = true)
        by (apply existsb_exists; now exists x).
      congruence.
    + now rewrite Hd.
Qed.

(** Responses that are not from a device (local, or with an address that
    does not parse) have no part in the outcome of the first program. *)
Theorem main_ignores_non_devices {N : Net} (lib : Calls)
  (responses : list string) :
  main lib responses = main lib (filter nonLocal responses).
Proof.
  unfold main.
  destruct (listenErr lib); [reflexivity|].
  destruct (tokenErr lib); [reflexivity|].
  destruct (setupGetErr lib); [reflexivity|].
  destruct (discoveryErr lib); [reflexivity|]. cbv zeta.
  destruct (DiscoveryRequest_filter responses start start eq_refl eq_refl)
    as [Hf Hd].
  rewrite Hd.
  destruct (deviceFound (DiscoveryRequest discoveryCallback
                           (filter nonLocal responses) start)); [reflexivity|].
  apply connect_firstDevice. cbn [log_Printf firstDevice]. exact Hf.
Qed.

(** The second program waits for ever exactly when its library calls
    succeed and no response arrives at all; it has no timeout. *)
Theorem main2_waits_iff_no_response {N : Net} (lib : Calls)
  (responses : list string) :
  main2 lib responses = Waiting
  <-> listenErr lib = None /\ tokenErr lib = None /\ setupGetErr lib = None
      /\ discoveryErr lib = None /\ responses = [].
Proof.
  unfold main2. split.
  - destruct (listenErr lib); [discriminate|].
    destruct (tokenErr lib); [discriminate|].
    destruct (setupGetErr lib); [discriminate|].
    destruct (discoveryErr lib); [discriminate|]. cbv zeta.
    destruct responses as [|a rest]; [now repeat split|]. intros Hm. exfalso.
    rewrite DiscoveryRequest_cons in Hm.
    pose proof (DiscoveryRequest2_signals rest (discoveryCallback2 a start)) as Hs.
    destruct (deviceFound (DiscoveryRequest discoveryCallback2 rest
                             (discoveryCallback2 a start))) as [|b l].
    + apply Hs; [discriminate | reflexivity].
    + unfold connect in Hm. destruct (observerAddr _); discriminate.
  - intros (-> & -> & -> & -> & ->). reflexivity.
Qed.

(** In the second program, its library calls succeeding, the first
    response decides, whatever follows: the program dials port 5688 of
    its host, or, the address having never been checked, fails on
    parsing it. *)
Theorem main2_first_response_decides {N : Net} (a : string)
  (rest : list string) :
  a <> ""%string ->
  main2 succeed (a :: rest)
  = match SplitHostPort a with
    | Ok (host, _) => Dial (host ++ ":5688")%string a
    | Err _ => Fatal "Error parsing address:"
    end.
Proof.
  intros Ha. now destruct (main2_first a rest Ha) as (_ & _ & Hm).
Qed.

Lemma main2_first_response_decides_witness :
  main2 (N := GoRuntime.goNet) succeed
        ["203.0.113.5"; "198.51.100.7:5683"]%string
  = Fatal "Error parsing address:".
Proof.
  refine (main2_first_response_decides (N := GoRuntime.goNet)
            "203.0.113.5" ["198.51.100.7:5683"%string] _).
  discriminate.
Defined.

(** When every response comes from a device, and there is one, the two
    programs select the same device, leave the channel in the same state
    and, for the same results of their library calls, come to the same
    end. *)
Theorem programs_agree_on_devices {N : Net} (lib : Calls)
  (responses : list string) :
  forallb nonLocal responses = true ->
  responses <> [] ->
  firstDevice (DiscoveryRequest discoveryCallback responses start)
  = firstDevice (DiscoveryRequest discoveryCallback2 responses start)
  /\ deviceFound (DiscoveryRequest discoveryCallback responses start)
     = deviceFound (DiscoveryRequest discoveryCallback2 responses start)
  /\ main lib responses = main2 lib responses.
Proof.
  intros Hall Hne.
  destruct (DiscoveryRequest_agree_2 responses Hall start start eq_refl eq_refl)
    as [Hf Hd].
  split; [exact Hf|]. split; [exact Hd|].
  unfold main, main2.
  destruct (listenErr lib); [reflexivity|].
  destruct (tokenErr lib); [reflexivity|].
  destruct (setupGetErr lib); [reflexivity|].
  destruct (discoveryErr lib); [reflexivity|]. cbv zeta.
  rewrite Hd.
  destruct responses as [|a rest]; [contradiction|].
  pose proof (DiscoveryRequest2_signals rest (discoveryCallback2 a start)) as Hs.
  rewrite DiscoveryRequest_cons in *.
  destruct (deviceFound (DiscoveryRequest discoveryCallback2 rest
                           (discoveryCallback2 a start))) as [|b l].
  - exfalso. apply Hs; [discriminate | reflexivity].
  - apply connect_firstDevice. cbn [log_Printf firstDevice]. exact Hf.
Qed.

Lemma programs_agree_on_devices_witness :
  firstDevice (DiscoveryRequest (discoveryCallback (N := GoRuntime.goNet))
                 ["203.0.113.5:5683"; "198.51.100.7:5683"]%string start)
  = firstDevice (DiscoveryRequest discoveryCallback2
                   ["203.0.113.5:5683"; "198.51.100.7:5683"]%string start)
  /\ deviceFound (DiscoveryRequest (discoveryCallback (N := GoRuntime.goNet))
                    ["203.0.113.5:5683"; "198.51.100.7:5683"]%string start)
     = deviceFound (DiscoveryRequest discoveryCallback2
                      ["203.0.113.5:5683"; "198.51.100.7:5683"]%string start)
  /\ main (N := GoRuntime.goNet) succeed
          ["203.0.113.5:5683"; "198.51.100.7:5683"]%string
     = main2 (N := GoRuntime.goNet) succeed
         ["203.0.113.5:5683"; "198.51.100.7:5683"]%string.
Proof.
  refine (programs_agree_on_devices (N := GoRuntime.goNet) succeed
            ["203.0.113.5:5683"; "198.51.100.7:5683"]%string eq_refl _).
  discriminate.
Defined.

(** The callback of the first program logs every response, once, in the
    order in which the callbacks run, whether the response is selected,
    passed over, skipped as local or in error. *)
Theorem every_response_logged {N : Net} (responses : list string) :
  map entryAddr (logs (DiscoveryRequest discoveryCallback responses start))
  = responses.
Proof.
  exact (DiscoveryRequest_logs discoveryCallback discoveryCallback_logs
           responses start).
Qed.

End ClientMore.
